(** * Gestor de gastos: a model of [app.py] and the properties of its core

    The program keeps, per user, a list of expenses in a JSON file and a
    shared JSON file of user names and passwords.  This development embeds
    the functions of [app.py] that make up that core ([cargar_usuarios],
    [registrar_usuario], [validar_usuario], the classes [Gasto] and
    [GestorGastos], and the form handler that calls [agregar_gasto]) and
    proves what they do.  It also embeds the parts of the page that decide
    what happens to the data: the user bar with its session, and the list of
    expenses with its filter and its delete buttons.

    Python values are dynamically typed, and a value read back from a JSON
    file can have any JSON shape; the fields of a [Gasto] are therefore
    values of the type [valor] below, not strings and floats.  Effects (the
    files, the clock, exceptions) are threaded through a small state and
    exception monad [M]. *)

From Stdlib Require Import ZArith QArith String Ascii.
From Stdlib Require Import Floats.PrimFloat Floats.SpecFloat Floats.FloatOps.
From stdpp Require Import gmap strings list fin_maps sorting.

Set Warnings "-register-all,-inexact-float".
#[local] Open Scope Z_scope.

(** ** Python values

    The values that [json.load] produces and [json.dump] accepts: [None],
    booleans, integers of any size, IEEE doubles, strings, lists, and
    dictionaries with string keys.  A [str] is kept as the bytes of its
    UTF-8 encoding; comparing two such byte strings lexicographically orders
    them as Python orders the strings they encode (by code point). *)

Inductive valor : Type :=
  | VNone
  | VBool (b : bool)
  | VInt (z : Z)
  | VFloat (x : float)
  | VStr (s : string)
  | VList (l : list valor)
  | VDict (d : gmap string valor).

(** The exceptions the modelled code can meet.  All of them derive from
    [Exception], so [except Exception] catches each one. *)
Inductive excepcion : Type :=
  | TypeError
  | KeyError
  | AttributeError
  | OverflowError
  | JSONDecodeError
  | OSError.

Inductive resultado (A : Type) : Type :=
  | Ok (a : A)
  | Raise (e : excepcion).
Arguments Ok {A} a.
Arguments Raise {A} e.

(** [bool(v)], the truth value Python gives [v] in a condition. *)
Definition truthy (v : valor) : bool :=
  match v with
  | VNone => false
  | VBool b => b
  | VInt z => negb (Z.eqb z 0)
  | VFloat x => negb (PrimFloat.eqb x 0%float)
  | VStr s => negb (String.eqb s "")
  | VList l => match l with [] => false | _ :: _ => true end
  | VDict d => match map_to_list d with [] => false | _ :: _ => true end
  end.

(** [v == s] for a string [s]: equal only to the same string. *)
Definition valor_eq_str (v : valor) (s : string) : bool :=
  match v with
  | VStr t => String.eqb t s
  | _ => false
  end.

(** [data[k]] for a string key [k]. Only a dictionary can be subscripted by
    a string: a list or a string wants an integer index, the other values
    are not subscriptable. *)
Definition getitem (data : valor) (k : string) : resultado valor :=
  match data with
  | VDict d => match d !! k with Some v => Ok v | None => Raise KeyError end
  | _ => Raise TypeError
  end.

(** The elements that [for d in datos] visits. A dictionary yields its
    keys (in the order of the map here, of insertion in Python), a string its
    characters (one element per byte here, per code point in Python); the
    elements are strings either way, as many as there are keys, and none
    exactly when the string is empty. *)
Definition iterar (datos : valor) : resultado (list valor) :=
  match datos with
  | VList l => Ok l
  | VDict d => Ok (VStr <$> (map_to_list d).*1)
  | VStr s => Ok ((fun c => VStr (String c "")) <$> list_ascii_of_string s)
  | _ => Raise TypeError
  end.

(** ** The world: files and clock

    A file either cannot be loaded ([open] or [json.load] raises the given
    exception: a directory, bytes that are not UTF-8, text that is not JSON)
    or holds a JSON document.  The store keeps the document as a value: the
    text that [json.dump] writes and [json.load] parses back is the work of
    the [json] library, not of [app.py].  Every path can be written; a failing
    write (full disk, missing directory, a string that UTF-8 cannot encode)
    is outside the model.

    [datetime.now()] reads a clock; the [n]-th reading of a run is
    [reloj n]. *)

Record datetime : Type := {
  anio : nat; mes : nat; dia : nat;
  hora : nat; minuto : nat; segundo : nat
}.

Inductive contenido : Type :=
  | Ilegible (e : excepcion)
  | Documento (v : valor).

Record mundo : Type := {
  archivos : gmap string contenido;
  reloj : nat -> datetime;
  lecturas : nat
}.

Definition con_archivos (fs : gmap string contenido) (w : mundo) : mundo :=
  {| archivos := fs; reloj := reloj w; lecturas := lecturas w |}.

(** ** The monad of effects: state of the world plus exceptions.  A raised
    exception keeps the changes made to the world before it. *)

Definition M (A : Type) : Type := mundo -> resultado A * mundo.

Definition ret {A} (a : A) : M A := fun w => (Ok a, w).

Definition bind {A B} (c : M A) (k : A -> M B) : M B :=
  fun w => match c w with
           | (Ok a, w') => k a w'
           | (Raise e, w') => (Raise e, w')
           end.

Definition lift {A} (r : resultado A) : M A := fun w => (r, w).

(** [try: c  except Exception: h] *)
Definition try_except {A} (c h : M A) : M A :=
  fun w => match c w with
           | (Ok a, w') => (Ok a, w')
           | (Raise _, w') => h w'
           end.

Notation "'haz' x <- c ; k" := (bind c (fun x => k))
  (at level 10, x name, c at level 100, k at level 200, only parsing).
Notation "'haz_' c ; k" := (bind c (fun _ => k))
  (at level 10, c at level 100, k at level 200, only parsing).

Fixpoint mapM {A B} (f : A -> M B) (l : list A) : M (list B) :=
  match l with
  | [] => ret []
  | x :: l' => haz y <- f x ; haz ys <- mapM f l' ; ret (y :: ys)
  end.

Definition os_path_exists (path : string) : M bool :=
  fun w => (Ok (bool_decide (is_Some (archivos w !! path))), w).

(** [with open(path, 'r', encoding='utf-8') as f: json.load(f)] *)
Definition json_load (path : string) : M valor :=
  fun w => match archivos w !! path with
           | Some (Documento v) => (Ok v, w)
           | Some (Ilegible e) => (Raise e, w)
           | None => (Raise OSError, w)
           end.

(** [with open(path, 'w', encoding='utf-8') as f: json.dump(v, f, ...)] *)
Definition json_dump (path : string) (v : valor) : M unit :=
  fun w => (Ok tt, con_archivos (<[path := Documento v]> (archivos w)) w).

Definition datetime_now : M datetime :=
  fun w => (Ok (reloj w (lecturas w)),
            {| archivos := archivos w; reloj := reloj w; lecturas := S (lecturas w) |}).

(** [strftime("%Y-%m-%d %H:%M:%S")]. The year is written with four digits,
    as every platform does for the years 1000 to 9999. *)
Definition digito (n : nat) : ascii := ascii_of_nat (48 + n mod 10).

Definition dos_digitos (n : nat) : string :=
  String (digito (n / 10)) (String (digito n) "").

Definition cuatro_digitos (n : nat) : string :=
  String (digito (n / 1000)) (String (digito (n / 100)) (dos_digitos n)).

Definition strftime (d : datetime) : string :=
  cuatro_digitos (anio d) +:+ "-" +:+ dos_digitos (mes d) +:+ "-" +:+
  dos_digitos (dia d) +:+ " " +:+ dos_digitos (hora d) +:+ ":" +:+
  dos_digitos (minuto d) +:+ ":" +:+ dos_digitos (segundo d).

(** ** Users *)

Definition USERS_FILE : string := "usuarios.json".

Definition cargar_usuarios : M valor :=
  haz e <- os_path_exists USERS_FILE ;
  if e then json_load USERS_FILE else ret (VDict ∅).

Definition guardar_usuarios (usuarios : valor) : M unit :=
  json_dump USERS_FILE usuarios.

(** [usuario in usuarios]: a key of a dictionary, an element of a list, a
    substring of a string; the other values are not containers. *)
Definition contiene (usuarios : valor) (usuario : string) : resultado bool :=
  match usuarios with
  | VDict d => Ok (bool_decide (is_Some (d !! usuario)))
  | VList l => Ok (existsb (fun v => valor_eq_str v usuario) l)
  | VStr s => Ok (match String.index 0 usuario s with Some _ => true | None => false end)
  | _ => Raise TypeError
  end.

(** [usuarios[usuario] = password] *)
Definition setitem (usuarios : valor) (usuario : string) (v : valor) : resultado valor :=
  match usuarios with
  | VDict d => Ok (VDict (<[usuario := v]> d))
  | _ => Raise TypeError
  end.

(** [usuarios.get(usuario)] *)
Definition dict_get (usuarios : valor) (usuario : string) : resultado valor :=
  match usuarios with
  | VDict d => Ok (default VNone (d !! usuario))
  | _ => Raise AttributeError
  end.

Definition registrar_usuario (usuario password : string) : M bool :=
  haz usuarios <- cargar_usuarios ;
  haz ya <- lift (contiene usuarios usuario) ;
  if ya then ret false
  else
    haz usuarios' <- lift (setitem usuarios usuario (VStr password)) ;
    haz_ guardar_usuarios usuarios' ;
    ret true.

Definition validar_usuario (usuario password : string) : M bool :=
  haz usuarios <- cargar_usuarios ;
  haz v <- lift (dict_get usuarios usuario) ;
  ret (valor_eq_str v password).

(** ** Expenses *)

Record Gasto : Type := {
  descripcion : valor;
  monto : valor;
  categoria : valor;
  fecha : valor
}.

(** [Gasto.__init__]: [fecha if fecha else datetime.now().strftime(...)] *)
Definition Gasto_init (descripcion monto categoria fecha : valor) : M Gasto :=
  haz f <- (if truthy fecha then ret fecha
        else haz d <- datetime_now ; ret (VStr (strftime d))) ;
  ret {| descripcion := descripcion; monto := monto;
         categoria := categoria; fecha := f |}.

Definition Gasto_to_dict (self : Gasto) : valor :=
  VDict (<["descripcion" := descripcion self]>
         (<["monto" := monto self]>
          (<["categoria" := categoria self]>
           (<["fecha" := fecha self]> ∅)))).

Definition Gasto_from_dict (data : valor) : M Gasto :=
  haz d <- lift (getitem data "descripcion") ;
  haz m <- lift (getitem data "monto") ;
  haz c <- lift (getitem data "categoria") ;
  haz f <- lift (getitem data "fecha") ;
  Gasto_init d m c f.

Record GestorGastos : Type := {
  archivo_datos : string;
  gastos : list Gasto
}.

Definition con_gastos (gs : list Gasto) (self : GestorGastos) : GestorGastos :=
  {| archivo_datos := archivo_datos self; gastos := gs |}.

(** The body of the [try] of [cargar_datos]. *)
Definition leer_datos (self : GestorGastos) : M GestorGastos :=
  haz datos <- json_load (archivo_datos self) ;
  haz ds <- lift (iterar datos) ;
  haz gs <- mapM Gasto_from_dict ds ;
  ret (con_gastos gs self).

Definition cargar_datos (self : GestorGastos) : M GestorGastos :=
  haz e <- os_path_exists (archivo_datos self) ;
  if e then try_except (leer_datos self) (ret (con_gastos [] self))
  else ret self.

(** [GestorGastos.__init__]: the file name, the empty list, the load. *)
Definition nuevo_gestor (usuario : string) : GestorGastos :=
  {| archivo_datos := "gastos_" +:+ usuario +:+ ".json"; gastos := [] |}.

Definition GestorGastos_init (usuario : string) : M GestorGastos :=
  cargar_datos (nuevo_gestor usuario).

Definition guardar_datos (self : GestorGastos) : M unit :=
  json_dump (archivo_datos self) (VList (Gasto_to_dict <$> gastos self)).

Definition agregar_gasto (self : GestorGastos) (descripcion monto categoria : valor)
  : M GestorGastos :=
  haz g <- Gasto_init descripcion monto categoria VNone ;
  let self' := con_gastos (gastos self ++ [g]) self in
  haz_ guardar_datos self' ;
  ret self'.

Definition eliminar_gasto (self : GestorGastos) (indice : Z) : M GestorGastos :=
  if Z.leb 0 indice && Z.ltb indice (Z.of_nat (length (gastos self))) then
    let self' := con_gastos (delete (Z.to_nat indice) (gastos self)) self in
    haz_ guardar_datos self' ;
    ret self'
  else ret self.

(** ** Numbers: [sum], [==] and [<]

    Python adds and compares [bool], [int] and [float] together: a boolean
    counts as the integer 0 or 1; an integer met by a float is converted to
    the nearest double (ties to even), which raises [OverflowError] when it
    is too large; integers and floats are compared exactly. *)

Inductive numero : Type :=
  | NInt (z : Z)
  | NFloat (x : float).

Definition numero_de (v : valor) : option numero :=
  match v with
  | VBool b => Some (NInt (Z.b2z b))
  | VInt z => Some (NInt z)
  | VFloat x => Some (NFloat x)
  | _ => None
  end.

Definition valor_de (n : numero) : valor :=
  match n with
  | NInt z => VInt z
  | NFloat x => VFloat x
  end.

Definition float_de_int (z : Z) : resultado float :=
  let x := SF2Prim (binary_normalize prec emax z 0 false) in
  if PrimFloat.is_infinity x then Raise OverflowError else Ok x.

Definition num_add (a b : numero) : resultado numero :=
  match a, b with
  | NInt x, NInt y => Ok (NInt (x + y))
  | NFloat x, NFloat y => Ok (NFloat (PrimFloat.add x y))
  | NInt x, NFloat y =>
      match float_de_int x with
      | Ok x' => Ok (NFloat (PrimFloat.add x' y))
      | Raise e => Raise e
      end
  | NFloat x, NInt y =>
      match float_de_int y with
      | Ok y' => Ok (NFloat (PrimFloat.add x y'))
      | Raise e => Raise e
      end
  end.

Definition sum_paso (acc : resultado numero) (v : valor) : resultado numero :=
  match acc with
  | Raise e => Raise e
  | Ok a =>
      match numero_de v with
      | Some n => num_add a n
      | None => Raise TypeError
      end
  end.

(** [sum(vs)] is a built-in of the interpreter, and what it does with
    floats depends on the interpreter.  Up to CPython 3.11 the items are added
    from left to right onto the integer 0.  From CPython 3.12 on, floats are
    added with Neumaier's compensation of the rounding errors, inside the
    loops of the C function, which is embedded here as of 3.12: a loop that
    keeps the sum in a C [long] while the items are integers, a loop that
    keeps it in a [double] with the compensation [c] once an item is a
    float, and the general loop, which adds from left to right, for the
    rest.  [LONG_MAX] is the largest [long] of the platform. *)

Inductive interprete : Type :=
  | CPython_hasta_3_11
  | CPython_desde_3_12 (LONG_MAX : Z).

Definition sum_hasta_3_11 (vs : list valor) : resultado valor :=
  match fold_left sum_paso vs (Ok (NInt 0)) with
  | Ok n => Ok (valor_de n)
  | Raise e => Raise e
  end.

Inductive estado_sum : Type :=
  | Bucle_long (i_result : Z)
  | Bucle_double (f_result c : float)
  | Bucle_general (result : numero).

Definition cabe_en_long (LONG_MAX z : Z) : bool :=
  Z.leb (- LONG_MAX - 1) z && Z.leb z LONG_MAX.

(** An item that is an [int] (a [bool] is one). *)
Definition entero_de (v : valor) : option Z :=
  match v with
  | VBool b => Some (Z.b2z b)
  | VInt z => Some z
  | _ => None
  end.

(** One step of the compensated sum:
    [t = f_result + x;
     if (fabs(f_result) >= fabs(x)) c += (f_result - t) + x;
     else c += (x - t) + f_result;
     f_result = t]. *)
Definition neumaier (f_result c x : float) : float * float :=
  let t := PrimFloat.add f_result x in
  (t,
   if PrimFloat.leb (PrimFloat.abs x) (PrimFloat.abs f_result)
   then PrimFloat.add c (PrimFloat.add (PrimFloat.sub f_result t) x)
   else PrimFloat.add c (PrimFloat.add (PrimFloat.sub x t) f_result)).

(** [if (c && isfinite(c)) f_result += c] *)
Definition con_compensacion (f_result c : float) : float :=
  if negb (PrimFloat.eqb c 0%float) && PrimFloat.is_finite c
  then PrimFloat.add f_result c else f_result.

Definition en_general (r : resultado numero) : resultado estado_sum :=
  match r with
  | Ok n => Ok (Bucle_general n)
  | Raise e => Raise e
  end.

Definition sum_paso_3_12 (LONG_MAX : Z) (st : resultado estado_sum) (item : valor)
  : resultado estado_sum :=
  match st with
  | Raise e => Raise e
  | Ok (Bucle_long i_result) =>
      match entero_de item with
      | Some b =>
          if cabe_en_long LONG_MAX b && cabe_en_long LONG_MAX (i_result + b)
          then Ok (Bucle_long (i_result + b))
          else Ok (Bucle_general (NInt (i_result + b)))
      | None =>
          match item with
          | VFloat x =>
              match float_de_int i_result with
              | Ok i => Ok (Bucle_double (PrimFloat.add i x) 0%float)
              | Raise e => Raise e
              end
          | _ => Raise TypeError
          end
      end
  | Ok (Bucle_double f_result c) =>
      match item with
      | VFloat x => let (t, c') := neumaier f_result c x in Ok (Bucle_double t c')
      | _ =>
          match entero_de item with
          | Some b =>
              if cabe_en_long LONG_MAX b then
                match float_de_int b with
                | Ok value => Ok (Bucle_double (PrimFloat.add f_result value) c)
                | Raise e => Raise e
                end
              else en_general (num_add (NFloat (con_compensacion f_result c)) (NInt b))
          | None => Raise TypeError
          end
      end
  | Ok (Bucle_general result) =>
      match numero_de item with
      | Some n => en_general (num_add result n)
      | None => Raise TypeError
      end
  end.

Definition sum_fin (st : estado_sum) : valor :=
  match st with
  | Bucle_long i_result => VInt i_result
  | Bucle_double f_result c => VFloat (con_compensacion f_result c)
  | Bucle_general result => valor_de result
  end.

Definition sum_desde_3_12 (LONG_MAX : Z) (vs : list valor) : resultado valor :=
  match fold_left (sum_paso_3_12 LONG_MAX) vs (Ok (Bucle_long 0)) with
  | Ok st => Ok (sum_fin st)
  | Raise e => Raise e
  end.

Definition sum (py : interprete) (vs : list valor) : resultado valor :=
  match py with
  | CPython_hasta_3_11 => sum_hasta_3_11 vs
  | CPython_desde_3_12 LONG_MAX => sum_desde_3_12 LONG_MAX vs
  end.

Definition comparar_int_float (z : Z) (x : float) : option comparison :=
  match Prim2SF x with
  | S754_nan => None
  | S754_zero _ => Some (Z.compare z 0)
  | S754_infinity s => Some (if s then Gt else Lt)
  | S754_finite s m e =>
      let sm := if s then Zneg m else Zpos m in
      Some (if Z.leb 0 e then Z.compare z (sm * 2 ^ e)
            else Z.compare (z * 2 ^ (- e)) sm)
  end.

Definition comparar_num (a b : numero) : option comparison :=
  match a, b with
  | NInt x, NInt y => Some (Z.compare x y)
  | NFloat x, NFloat y =>
      match PrimFloat.compare x y with
      | FEq => Some Eq
      | FLt => Some Lt
      | FGt => Some Gt
      | FNotComparable => None
      end
  | NInt x, NFloat y => comparar_int_float x y
  | NFloat x, NInt y => CompOpp <$> comparar_int_float y x
  end.

(** Lists and dictionaries cannot be members of a set. *)
Definition hashable (v : valor) : bool :=
  match v with
  | VList _ | VDict _ => false
  | _ => true
  end.

(** [a == b] and [a < b], for hashable values. *)
Definition py_eq (a b : valor) : bool :=
  match a, b with
  | VNone, VNone => true
  | VStr s, VStr t => String.eqb s t
  | _, _ =>
      match numero_de a, numero_de b with
      | Some x, Some y =>
          match comparar_num x y with Some Eq => true | _ => false end
      | _, _ => false
      end
  end.

Definition py_lt (a b : valor) : resultado bool :=
  match a, b with
  | VStr s, VStr t => Ok (String.ltb s t)
  | _, _ =>
      match numero_de a, numero_de b with
      | Some x, Some y =>
          Ok (match comparar_num x y with Some Lt => true | _ => false end)
      | _, _ => Raise TypeError
      end
  end.

(** [{v for v in vs}]: a set keeps the first of the elements that are
    equal; here it is listed in the order of first insertion. *)
Definition set_add (s : list valor) (v : valor) : list valor :=
  if existsb (py_eq v) s then s else s ++ [v].

Definition set_de (vs : list valor) : resultado (list valor) :=
  if forallb hashable vs then Ok (fold_left set_add vs []) else Raise TypeError.

(** [sorted(l)], which uses [<] only.  Python iterates a set in an order of
    its own and sorts with another algorithm; on elements that [<] orders
    totally, as strings are, every sort gives the same list.  (The order
    among NaN floats, which [<] does not order, is not the one of CPython.) *)
Fixpoint insertar (x : valor) (l : list valor) : resultado (list valor) :=
  match l with
  | [] => Ok [x]
  | y :: l' =>
      match py_lt y x with
      | Raise e => Raise e
      | Ok true =>
          match insertar x l' with
          | Ok r => Ok (y :: r)
          | Raise e => Raise e
          end
      | Ok false => Ok (x :: y :: l')
      end
  end.

Fixpoint sorted (l : list valor) : resultado (list valor) :=
  match l with
  | [] => Ok []
  | x :: l' =>
      match sorted l' with
      | Ok r => insertar x r
      | Raise e => Raise e
      end
  end.

Definition obtener_categorias (self : GestorGastos) : resultado (list valor) :=
  match set_de (categoria <$> gastos self) with
  | Ok s => sorted s
  | Raise e => Raise e
  end.

Definition total (py : interprete) (self : GestorGastos) : resultado valor :=
  sum py (monto <$> gastos self).

(** ** The form that adds an expense

    The handler of the form "nuevo_gasto": [float(monto)] is the
    conversion of the language, taken here as a parameter ([None] when it
    raises [ValueError]).  [m <= 0] compares the float with the integer 0,
    which is false for NaN.  The [except ValueError] also covers the call of
    [agregar_gasto], which raises nothing here. *)

Inductive aviso : Type :=
  | Monto_debe_ser_mayor_a_0
  | Gasto_agregado
  | Monto_invalido.

Section Formulario.
Variable float_de_texto : string -> option float.

Definition enviar_nuevo_gasto (gestor : GestorGastos) (desc monto cat : string)
  : M (aviso * GestorGastos) :=
  match float_de_texto monto with
  | None => ret (Monto_invalido, gestor)
  | Some m =>
      if PrimFloat.leb m 0%float then ret (Monto_debe_ser_mayor_a_0, gestor)
      else
        haz g <- agregar_gasto gestor (VStr desc) (VFloat m) (VStr cat) ;
        ret (Gasto_agregado, g)
  end.
End Formulario.

(** ** Runs on concrete inputs *)

Definition reloj0 : nat -> datetime := fun n =>
  {| anio := 2024; mes := 5; dia := 17; hora := 9; minuto := 30; segundo := n |}.

Definition mundo0 : mundo := {| archivos := ∅; reloj := reloj0; lecturas := 0 |}.

Definition gestor_ana : GestorGastos := nuevo_gestor "ana".

(** ** Notions used in the statements *)

(** The world after one reading of the clock, and the date read. *)
Definition tic (w : mundo) : mundo :=
  {| archivos := archivos w; reloj := reloj w; lecturas := S (lecturas w) |}.

Definition ahora (w : mundo) : valor := VStr (strftime (reloj w (lecturas w))).

(** A record is dated when its [fecha] is a value that Python takes as true. *)
Definition fechado (g : Gasto) : Prop := truthy (fecha g) = true.

(** The ledgers the program can hold: the one a construction returns, and
    those that additions and removals make of it. *)
Inductive alcanzable : GestorGastos -> Prop :=
  | alc_init usuario w g w' :
      GestorGastos_init usuario w = (Ok g, w') -> alcanzable g
  | alc_agregar g d m c w g' w' :
      alcanzable g -> agregar_gasto g d m c w = (Ok g', w') -> alcanzable g'
  | alc_eliminar g i w g' w' :
      alcanzable g -> eliminar_gasto g i w = (Ok g', w') -> alcanzable g'.

(** The four keys of a stored record, and whether a value of the stored
    sequence is an object that has them all. *)
Definition campos : list string := ["descripcion"; "monto"; "categoria"; "fecha"].

Definition tiene_los_campos (d : valor) : bool :=
  match d with
  | VDict m => forallb (fun k => bool_decide (is_Some (m !! k))) campos
  | _ => false
  end.

(** Worlds for the runs: a file for "ana" that is not JSON, and one whose
    second record lacks its date. *)
Definition mundo_corrupto : mundo :=
  {| archivos := {[ "gastos_ana.json" := Ilegible JSONDecodeError ]};
     reloj := reloj0; lecturas := 0 |}.

Definition gasto_cafe : Gasto :=
  {| descripcion := VStr "cafe"; monto := VFloat 3.5;
     categoria := VStr "Comida"; fecha := VStr "2024-05-17 09:30:00" |}.

Definition mundo_truncado : mundo :=
  {| archivos :=
       {[ "gastos_ana.json" :=
            Documento (VList [ Gasto_to_dict gasto_cafe;
                               VDict (<["descripcion" := VStr "bus"]>
                                      (<["monto" := VFloat 1.25]>
                                       (<["categoria" := VStr "Transporte"]> ∅))) ]) ]};
     reloj := reloj0; lecturas := 0 |}.

(** The mapping of users that the files hold: the empty one without a users
    file, the object of the users file when it holds one. *)
Definition usuarios_guardados (w : mundo) : option (gmap string valor) :=
  match archivos w !! USERS_FILE with
  | None => Some ∅
  | Some (Documento (VDict d)) => Some d
  | Some _ => None
  end.

(** The world after [registrar_usuario] has written the mapping [d]. *)
Definition con_usuarios (d : gmap string valor) (w : mundo) : mundo :=
  con_archivos (<[USERS_FILE := Documento (VDict d)]> (archivos w)) w.

Definition mundo_alice : mundo := con_usuarios {[ "alice" := VStr "pw1" ]} mundo0.

(** The sum of a sequence of float amounts, in words of floats only: the
    amounts added in order as doubles, and the same with the compensation. *)
Definition suma_ingenua (ms : list float) : float :=
  fold_left PrimFloat.add ms 0%float.

Fixpoint neumaier_desde (f_result c : float) (ms : list float) : float :=
  match ms with
  | [] => con_compensacion f_result c
  | x :: ms' => let (t, c') := neumaier f_result c x in neumaier_desde t c' ms'
  end.

Definition suma_compensada (ms : list float) : float :=
  match ms with
  | [] => 0%float
  | x :: ms' => neumaier_desde (PrimFloat.add 0%float x) 0%float ms'
  end.

Definition suma_de_floats (py : interprete) (ms : list float) : float :=
  match py with
  | CPython_hasta_3_11 => suma_ingenua ms
  | CPython_desde_3_12 _ => suma_compensada ms
  end.

Definition suma_de_montos (py : interprete) (ms : list float) : valor :=
  match ms with
  | [] => VInt 0
  | _ :: _ => VFloat (suma_de_floats py ms)
  end.

(** The number that a finite double stands for, and the exact sum of a
    sequence of amounts, as rationals. *)
Definition racional (x : float) : Q :=
  match Prim2SF x with
  | S754_finite s m e =>
      let sm := if s then Zneg m else Zpos m in
      if Z.leb 0 e then inject_Z (sm * 2 ^ e)
      else Qmake sm (Pos.pow 2 (Z.to_pos (- e)))
  | _ => inject_Z 0
  end.

Definition suma_exacta (ms : list float) : Q :=
  fold_left (fun q m => Qplus q (racional m)) ms (inject_Z 0).

(** No addition rounds: every partial sum is finite and is exactly the sum
    of its two operands, and the compensation that the sum of CPython 3.12
    keeps of the rounding errors is zero all along. *)
Definition suma_sin_redondeo (f x : float) : bool :=
  PrimFloat.is_finite (PrimFloat.add f x)
  && Qeq_bool (racional (PrimFloat.add f x)) (Qplus (racional f) (racional x)).

Fixpoint sin_redondeo_desde (f_result c : float) (ms : list float) : bool :=
  match ms with
  | [] => true
  | x :: ms' =>
      let (t, c') := neumaier f_result c x in
      suma_sin_redondeo f_result x && PrimFloat.eqb c' 0%float
      && sin_redondeo_desde t c' ms'
  end.

Definition sin_redondeo (ms : list float) : bool :=
  match ms with
  | [] => true
  | x :: ms' =>
      suma_sin_redondeo 0%float x
      && sin_redondeo_desde (PrimFloat.add 0%float x) 0%float ms'
  end.

(** Interpreters for the runs, with the [long] of 64-bit Linux. *)
Definition cpython_3_11 : interprete := CPython_hasta_3_11.
Definition cpython_3_12 : interprete := CPython_desde_3_12 (2 ^ 63 - 1).

Definition dos_decimos : list (valor * float * valor) :=
  [ (VStr "cafe", 0.1%float, VStr "Comida");
    (VStr "bus", 0.2%float, VStr "Otros") ].

(** Adding a sequence of expenses (description, amount, category), one call
    of [agregar_gasto] after the other. *)
Fixpoint agregar_varios (self : GestorGastos) (xs : list (valor * float * valor))
  : M GestorGastos :=
  match xs with
  | [] => ret self
  | (d, m, c) :: xs' =>
      haz g <- agregar_gasto self d (VFloat m) c ;
      agregar_varios g xs'
  end.

Definition montos_de (xs : list (valor * float * valor)) : list float :=
  (fun x => snd (fst x)) <$> xs.

Definition tres_gastos : list (valor * float * valor) :=
  [ (VStr "cafe", 10.5%float, VStr "Comida");
    (VStr "bus", 5.25%float, VStr "Otros");
    (VStr "pan", 0.25%float, VStr "Comida") ].

(** Ascending order of strings, byte by byte. *)
Definition str_lt (a b : string) : Prop := String.ltb a b = true.

(** The set and the sort restricted to strings, to which the proofs reduce
    [set_de] and [sorted] when every category is a string. *)
Definition str_set_add (s : list string) (c : string) : list string :=
  if existsb (String.eqb c) s then s else s ++ [c].

Fixpoint str_insertar (x : string) (l : list string) : list string :=
  match l with
  | [] => [x]
  | y :: l' => if String.ltb y x then y :: str_insertar x l' else x :: y :: l'
  end.

Fixpoint str_sorted (l : list string) : list string :=
  match l with
  | [] => []
  | x :: l' => str_insertar x (str_sorted l')
  end.

Definition tres_categorias : GestorGastos :=
  {| archivo_datos := "gastos_ana.json";
     gastos :=
       [ {| descripcion := VStr "cafe"; monto := VFloat 10.5;
            categoria := VStr "Comida"; fecha := VStr "2024-05-17 09:30:00" |};
         {| descripcion := VStr "bus"; monto := VFloat 5.25;
            categoria := VStr "Otros"; fecha := VStr "2024-05-17 09:30:01" |};
         {| descripcion := VStr "pan"; monto := VFloat 0.25;
            categoria := VStr "Comida"; fecha := VStr "2024-05-17 09:30:02" |} ] |}.

(** A stand-in for [float] on the two texts of the runs below. *)
Definition float_de_dos_textos (s : string) : option float :=
  if String.eqb s "-1" then Some (-1)%float
  else if String.eqb s "3.50" then Some 3.5%float
  else None.

(** ** The user bar: registration, login and the session

    The sidebar of the page.  The radio button gives one of two options;
    the text inputs give strings; [pulsado] tells whether the button of the
    chosen option was pressed in this run.  [st.session_state.usuario] is
    [None] or the name of the user who logged in. *)

Inductive opcion : Type :=
  | Iniciar_sesion
  | Registrarse.

Inductive aviso_usuario : Type :=
  | Usuario_registrado
  | El_usuario_ya_existe
  | Bienvenido (usuario : string)
  | Usuario_o_contrasena_incorrectos.

Definition barra_usuario (op : opcion) (usuario password : string) (pulsado : bool)
    (sesion : option string) : M (option aviso_usuario * option string) :=
  match op with
  | Registrarse =>
      if pulsado then
        haz ok <- registrar_usuario usuario password ;
        ret (Some (if ok then Usuario_registrado else El_usuario_ya_existe), sesion)
      else ret (None, sesion)
  | Iniciar_sesion =>
      if pulsado then
        haz ok <- validar_usuario usuario password ;
        if ok then ret (Some (Bienvenido usuario), Some usuario)
        else ret (Some Usuario_o_contrasena_incorrectos, sesion)
      else ret (None, sesion)
  end.

(** [if st.session_state.usuario: gestor = GestorGastos(st.session_state.usuario)]:
    the application is shown, and the ledger constructed, when the session
    holds a value that Python takes as true. *)
Definition abrir_gestor (sesion : option string) : M (option GestorGastos) :=
  match sesion with
  | Some usuario =>
      if truthy (VStr usuario) then
        haz gestor <- GestorGastos_init usuario ;
        ret (Some gestor)
      else ret None
  | None => ret None
  end.

(** ** The list of expenses, its filter and its delete buttons

    A [Gasto] is an object without [__eq__]: [==] on two of them, and so
    [list.index], tells whether they are the same object.  The records of a
    ledger are distinct objects, each built by its own call of the
    constructor; here a record of the list is identified by its position. *)

Fixpoint objetos_desde (k : nat) (gs : list Gasto) : list (nat * Gasto) :=
  match gs with
  | [] => []
  | g :: gs' => (k, g) :: objetos_desde (S k) gs'
  end.

Definition objetos (self : GestorGastos) : list (nat * Gasto) :=
  objetos_desde 0 (gastos self).

(** [gestor.gastos if filtro_cat == "Todas" else
     [g for g in gestor.gastos if g.categoria == filtro_cat]],
    for the string [filtro_cat] chosen in the select box. *)
Definition mostrar (self : GestorGastos) (filtro_cat : string) : list (nat * Gasto) :=
  if String.eqb filtro_cat "Todas" then objetos self
  else List.filter (fun o => valor_eq_str (categoria (snd o)) filtro_cat) (objetos self).

(** [l.index(o)]: the position of the first element that is the object [o];
    [None] stands for the [ValueError] raised when there is none. *)
Fixpoint index (o : nat) (l : list (nat * Gasto)) : option nat :=
  match l with
  | [] => None
  | x :: l' => if Nat.eqb (fst x) o then Some 0%nat else S <$> index o l'
  end.

(** The button "Eliminar" of the row that shows the object [o]:
    [real_index = gestor.gastos.index(o); gestor.eliminar_gasto(real_index)].
    [None] is the [ValueError] of [index], raised before anything is done. *)
Definition pulsar_eliminar (self : GestorGastos) (o : nat * Gasto)
  : option (M GestorGastos) :=
  match index (fst o) (objetos self) with
  | Some real_index => Some (eliminar_gasto self (Z.of_nat real_index))
  | None => None
  end.

(** The records that a list of objects shows. *)
Definition registros (l : list (nat * Gasto)) : list Gasto := snd <$> l.

(** The file of the ledger of a user, and the sequence it holds when it
    holds one. *)
Definition archivo_de (usuario : string) : string :=
  archivo_datos (nuevo_gestor usuario).

Definition documento_de (gs : list Gasto) : contenido :=
  Documento (VList (Gasto_to_dict <$> gs)).

(** A record with its date replaced by the one read from the clock. *)
Definition con_fecha (f : valor) (g : Gasto) : Gasto :=
  {| descripcion := descripcion g; monto := monto g;
     categoria := categoria g; fecha := f |}.

(** The exception of [from_dict] on a value that lacks a field: a missing
    key of an object, or a value that a string cannot subscript. *)
Definition error_de_campos (d : valor) : excepcion :=
  match d with
  | VDict _ => KeyError
  | _ => TypeError
  end.

(** A world whose users file registers the empty name with the empty
    password, and a record without a date. *)
Definition mundo_sin_nombre : mundo := con_usuarios {[ "" := VStr "" ]} mundo0.

Definition gasto_sin_fecha : Gasto := con_fecha (VStr "") gasto_cafe.

(** A world whose file for "ana" holds a record with a word as amount. *)
Definition mundo_monto_texto : mundo :=
  con_archivos
    {[ "gastos_ana.json" :=
         documento_de [con_fecha (VStr "2024-05-17 09:30:00")
                         {| descripcion := VStr "cafe"; monto := VStr "mucho";
                            categoria := VStr "Comida"; fecha := VNone |}] ]}
    mundo0.

(** What a loaded record has of the stored object [d] it was read from:
    the three values as they are; and as date the stored one when Python
    takes it as true, else [t], the time read from the clock for it. *)
Definition leido_de (t : valor) (d : valor) (g : Gasto) : Prop :=
  getitem d "descripcion" = Ok (descripcion g)
  /\ getitem d "monto" = Ok (monto g)
  /\ getitem d "categoria" = Ok (categoria g)
  /\ exists f, getitem d "fecha" = Ok f
               /\ fecha g = if truthy f then f else t.

(** Whether the stored object has a date that Python takes as false, and
    the time that the load reads for element [i] of the sequence [l]: the
    clock is read once for every such element, in order, from the reading
    [lecturas w] on. *)
Definition sin_fecha (d : valor) : bool :=
  match getitem d "fecha" with
  | Ok f => negb (truthy f)
  | Raise _ => false
  end.

Definition fecha_de_carga (w : mundo) (l : list valor) (i : nat) : valor :=
  VStr (strftime (reloj w (lecturas w + length (List.filter sin_fecha (take i l))))).
(** * Properties *)

(** ** The constructor of [Gasto] and the date it stores *)

Lemma truthy_strftime d : truthy (VStr (strftime d)) = true.
Proof. reflexivity. Qed.

Lemma Gasto_init_con_fecha d m c f w :
  truthy f = true ->
  Gasto_init d m c f w =
    (Ok {| descripcion := d; monto := m; categoria := c; fecha := f |}, w).
Proof. intros Hf. unfold Gasto_init, bind, ret. rewrite Hf. reflexivity. Qed.

Lemma Gasto_init_sin_fecha d m c f w :
  truthy f = false ->
  Gasto_init d m c f w =
    (Ok {| descripcion := d; monto := m; categoria := c; fecha := ahora w |}, tic w).
Proof. intros Hf. unfold Gasto_init, bind, ret. rewrite Hf. reflexivity. Qed.

Lemma Gasto_init_fechado d m c f w :
  exists g w', Gasto_init d m c f w = (Ok g, w') /\ fechado g
               /\ descripcion g = d /\ monto g = m /\ categoria g = c
               /\ archivos w' = archivos w.
Proof.
  destruct (truthy f) eqn:Hf.
  - rewrite Gasto_init_con_fecha by done. eexists _, _. split; [done|]. by repeat split.
  - rewrite Gasto_init_sin_fecha by done. eexists _, _. split; [done|]. by repeat split.
Qed.

(** ** [to_dict] and [from_dict] *)

Lemma getitem_to_dict g :
  getitem (Gasto_to_dict g) "descripcion" = Ok (descripcion g) /\
  getitem (Gasto_to_dict g) "monto" = Ok (monto g) /\
  getitem (Gasto_to_dict g) "categoria" = Ok (categoria g) /\
  getitem (Gasto_to_dict g) "fecha" = Ok (fecha g).
Proof. unfold getitem, Gasto_to_dict. by simplify_map_eq. Qed.

Lemma from_dict_to_dict g w :
  fechado g -> Gasto_from_dict (Gasto_to_dict g) w = (Ok g, w).
Proof.
  intros Hg. destruct (getitem_to_dict g) as (Hd & Hm & Hc & Hf).
  unfold Gasto_from_dict, bind, lift. rewrite Hd, Hm, Hc, Hf.
  rewrite Gasto_init_con_fecha by exact Hg. by destruct g.
Qed.

Lemma mapM_from_dict_to_dict gs w :
  Forall fechado gs -> mapM Gasto_from_dict (Gasto_to_dict <$> gs) w = (Ok gs, w).
Proof.
  induction 1 as [|g gs Hg _ IH]; [done|].
  cbn [fmap list_fmap mapM]. unfold bind at 1. rewrite from_dict_to_dict by done.
  unfold bind at 1. by rewrite IH.
Qed.

(** ** Adding and removing *)

Lemma agregar_gasto_eq self d m c w :
  agregar_gasto self d m c w =
    (Ok (con_gastos (gastos self ++
           [{| descripcion := d; monto := m; categoria := c; fecha := ahora w |}]) self),
     con_archivos
       (<[archivo_datos self :=
            Documento (VList (Gasto_to_dict <$> gastos self ++
              [{| descripcion := d; monto := m; categoria := c; fecha := ahora w |}]))]>
          (archivos w))
       (tic w)).
Proof.
  unfold agregar_gasto. unfold bind at 1.
  rewrite (Gasto_init_sin_fecha d m c VNone w) by reflexivity.
  reflexivity.
Qed.

(** C9. [agregar_gasto] returns normally for every description, amount and
    category; the ledger it leaves is the old one followed by exactly one
    record that carries the three values and the time read from the clock;
    the records that were present keep their positions; the length grows by
    one; and the file of the ledger holds the whole new sequence. *)
Theorem agregar_gasto_appends_one self d m c w :
  let g := {| descripcion := d; monto := m; categoria := c; fecha := ahora w |} in
  let self' := con_gastos (gastos self ++ [g]) self in
  agregar_gasto self d m c w =
    (Ok self',
     con_archivos
       (<[archivo_datos self := Documento (VList (Gasto_to_dict <$> gastos self'))]>
          (archivos w))
       (tic w))
  /\ length (gastos self') = S (length (gastos self))
  /\ (forall i r, gastos self !! i = Some r -> gastos self' !! i = Some r)
  /\ gastos self' !! length (gastos self) = Some g
  /\ archivos (snd (agregar_gasto self d m c w)) !! archivo_datos self' =
       Some (Documento (VList (Gasto_to_dict <$> gastos self'))).
Proof.
  intros g self'. rewrite agregar_gasto_eq. split; [reflexivity|].
  subst self'. cbn [gastos con_gastos archivo_datos snd archivos con_archivos].
  repeat split.
  - rewrite length_app. cbn. lia.
  - intros i r Hi. by apply lookup_app_l_Some.
  - by rewrite list_lookup_middle.
  - by rewrite lookup_insert_eq.
Qed.

Lemma agregar_gasto_appends_one_witness :
  exists g w',
    agregar_gasto (con_gastos [gasto_cafe] gestor_ana)
      (VStr "bus") (VFloat 1.25) (VStr "Transporte") mundo0 = (Ok g, w')
    /\ gastos g !! 0%nat = Some gasto_cafe
    /\ gastos g !! 1%nat =
         Some {| descripcion := VStr "bus"; monto := VFloat 1.25;
                 categoria := VStr "Transporte"; fecha := VStr "2024-05-17 09:30:00" |}
    /\ length (gastos g) = 2%nat.
Proof.
  pose proof (agregar_gasto_appends_one (con_gastos [gasto_cafe] gestor_ana)
                (VStr "bus") (VFloat 1.25) (VStr "Transporte") mundo0) as H.
  cbv zeta in H. destruct H as (Hrun & Hlen & Hpos & Hlast & _).
  eexists _, _. split; [exact Hrun|]. split; [|split].
  - apply Hpos. reflexivity.
  - exact Hlast.
  - exact Hlen.
Defined.

(** C4. For an integer index [i] and a ledger of [n] records: when
    [0 <= i < n], [eliminar_gasto] removes the record at position [i] and no
    other (the records before it keep their positions, those after it move
    down by one, the length drops by one) and writes the new sequence to the
    file; when [i] is outside [0, n), it returns without an error and leaves
    ledger and files as they were. *)
Theorem eliminar_gasto_by_index self (i : Z) w :
  let gs := gastos self in
  let gs' := take (Z.to_nat i) gs ++ drop (S (Z.to_nat i)) gs in
  (0 <= i < Z.of_nat (length gs) ->
     eliminar_gasto self i w =
       (Ok (con_gastos gs' self),
        con_archivos
          (<[archivo_datos self := Documento (VList (Gasto_to_dict <$> gs'))]> (archivos w))
          w)
     /\ S (length gs') = length gs
     /\ (forall j, (j < Z.to_nat i)%nat -> gs' !! j = gs !! j)
     /\ (forall j, (Z.to_nat i <= j)%nat -> gs' !! j = gs !! S j))
  /\ (~ (0 <= i < Z.of_nat (length gs)) -> eliminar_gasto self i w = (Ok self, w)).
Proof.
  intros gs gs'. subst gs'. rewrite <- delete_take_drop. split.
  - intros [H0 Hn]. unfold eliminar_gasto. fold gs.
    replace (Z.leb 0 i) with true by (symmetry; by apply Z.leb_le).
    replace (Z.ltb i (Z.of_nat (length gs))) with true by (symmetry; by apply Z.ltb_lt).
    split; [reflexivity|]. repeat split.
    + rewrite length_delete; [lia|]. apply lookup_lt_is_Some. lia.
    + intros j Hj. by apply list_lookup_delete_lt.
    + intros j Hj. by apply list_lookup_delete_ge.
  - intros Hout. unfold eliminar_gasto. fold gs.
    destruct (Z.leb_spec 0 i); [|reflexivity].
    destruct (Z.ltb_spec i (Z.of_nat (length gs))); [lia|reflexivity].
Qed.

Lemma eliminar_gasto_by_index_witness :
  eliminar_gasto
    {| archivo_datos := "gastos_ana.json";
       gastos := [ {| descripcion := VStr "cafe"; monto := VFloat 3.5;
                      categoria := VStr "Comida"; fecha := VStr "2024-05-17 09:30:00" |};
                   {| descripcion := VStr "bus"; monto := VFloat 1.25;
                      categoria := VStr "Transporte"; fecha := VStr "2024-05-17 09:31:00" |} ] |}
    0 mundo0
  = (Ok {| archivo_datos := "gastos_ana.json";
           gastos := [ {| descripcion := VStr "bus"; monto := VFloat 1.25;
                          categoria := VStr "Transporte";
                          fecha := VStr "2024-05-17 09:31:00" |} ] |},
     con_archivos
       (<["gastos_ana.json" :=
            Documento (VList [Gasto_to_dict
                         {| descripcion := VStr "bus"; monto := VFloat 1.25;
                            categoria := VStr "Transporte";
                            fecha := VStr "2024-05-17 09:31:00" |}])]> ∅)
       mundo0)
  /\ eliminar_gasto gestor_ana 0 mundo0 = (Ok gestor_ana, mundo0).
Proof.
  split.
  - apply (eliminar_gasto_by_index
             {| archivo_datos := "gastos_ana.json";
                gastos := [ {| descripcion := VStr "cafe"; monto := VFloat 3.5;
                               categoria := VStr "Comida";
                               fecha := VStr "2024-05-17 09:30:00" |};
                            {| descripcion := VStr "bus"; monto := VFloat 1.25;
                               categoria := VStr "Transporte";
                               fecha := VStr "2024-05-17 09:31:00" |} ] |} 0 mundo0).
    simpl. lia.
  - apply (eliminar_gasto_by_index gestor_ana 0 mundo0). simpl. lia.
Defined.

(** ** Loading a ledger *)

Lemma Gasto_init_archivos d m c f w r w' :
  Gasto_init d m c f w = (r, w') -> archivos w' = archivos w.
Proof.
  destruct (truthy f) eqn:Hf.
  - rewrite Gasto_init_con_fecha by done. by intros [= <- <-].
  - rewrite Gasto_init_sin_fecha by done. by intros [= <- <-].
Qed.

Lemma Gasto_from_dict_archivos data w r w' :
  Gasto_from_dict data w = (r, w') -> archivos w' = archivos w.
Proof.
  unfold Gasto_from_dict, bind, lift.
  destruct (getitem data "descripcion"); [|by intros [= <- <-]].
  destruct (getitem data "monto"); [|by intros [= <- <-]].
  destruct (getitem data "categoria"); [|by intros [= <- <-]].
  destruct (getitem data "fecha"); [|by intros [= <- <-]].
  apply Gasto_init_archivos.
Qed.

Lemma Gasto_from_dict_fechado data w g w' :
  Gasto_from_dict data w = (Ok g, w') -> fechado g.
Proof.
  unfold Gasto_from_dict, bind, lift.
  destruct (getitem data "descripcion") as [d|]; [|done].
  destruct (getitem data "monto") as [m|]; [|done].
  destruct (getitem data "categoria") as [c|]; [|done].
  destruct (getitem data "fecha") as [f|]; [|done].
  destruct (Gasto_init_fechado d m c f w) as (g0 & w0 & -> & Hg & _).
  by intros [= <- <-].
Qed.

Lemma mapM_from_dict_archivos l w r w' :
  mapM Gasto_from_dict l w = (r, w') -> archivos w' = archivos w.
Proof.
  revert w r w'. induction l as [|d l IH]; intros w r w'; cbn [mapM].
  - by intros [= <- <-].
  - unfold bind at 1. destruct (Gasto_from_dict d w) as [[g|e] w1] eqn:Hd.
    + apply Gasto_from_dict_archivos in Hd. unfold bind at 1.
      destruct (mapM Gasto_from_dict l w1) as [[gs|e] w2] eqn:Hl.
      * apply IH in Hl. intros [= <- <-]. congruence.
      * apply IH in Hl. intros [= <- <-]. congruence.
    + apply Gasto_from_dict_archivos in Hd. by intros [= <- <-].
Qed.

Lemma mapM_from_dict_fechado l w gs w' :
  mapM Gasto_from_dict l w = (Ok gs, w') -> Forall fechado gs /\ length gs = length l.
Proof.
  revert w gs w'. induction l as [|d l IH]; intros w gs w'; cbn [mapM].
  - by intros [= <- <-].
  - unfold bind at 1. destruct (Gasto_from_dict d w) as [[g|e] w1] eqn:Hd; [|done].
    unfold bind at 1. destruct (mapM Gasto_from_dict l w1) as [[gs1|e] w2] eqn:Hl; [|done].
    intros [= <- <-]. apply IH in Hl as [Hf Hlen]. split.
    + constructor; [by eapply Gasto_from_dict_fechado | done].
    + cbn. by rewrite Hlen.
Qed.

(** An element that lacks one of the four fields, or is not an object at
    all, makes [from_dict] raise before it reads the clock. *)
Lemma Gasto_from_dict_malformado d :
  tiene_los_campos d = false -> exists e, forall w, Gasto_from_dict d w = (Raise e, w).
Proof.
  unfold Gasto_from_dict, bind, lift, getitem.
  destruct d as [| | | | | |m]; try (by intros _; exists TypeError).
  cbn [tiene_los_campos campos forallb].
  destruct (m !! "descripcion"); [|by intros _; exists KeyError].
  destruct (m !! "monto"); [|by intros _; exists KeyError].
  destruct (m !! "categoria"); [|by intros _; exists KeyError].
  destruct (m !! "fecha"); [|by intros _; exists KeyError].
  intros H. exfalso. revert H. rewrite !bool_decide_eq_true_2 by eauto. done.
Qed.

Lemma mapM_from_dict_malformado l w :
  (exists d, d ∈ l /\ tiene_los_campos d = false) ->
  exists e w', mapM Gasto_from_dict l w = (Raise e, w').
Proof.
  intros (d & Hin & Hd). revert w.
  induction l as [|x l IH]; intros w; [by apply elem_of_nil in Hin|].
  cbn [mapM]. unfold bind at 1.
  destruct (Gasto_from_dict x w) as [[g|e] w1] eqn:Hx; [|by eauto].
  apply elem_of_cons in Hin as [->|Hin].
  - destruct (Gasto_from_dict_malformado _ Hd) as [e He]. rewrite He in Hx. done.
  - destruct (IH Hin w1) as (e & w' & He). unfold bind at 1. rewrite He. eauto.
Qed.

Lemma cargar_datos_sin_archivo self w :
  archivos w !! archivo_datos self = None -> cargar_datos self w = (Ok self, w).
Proof.
  intros H. unfold cargar_datos, bind, os_path_exists. rewrite H.
  rewrite bool_decide_eq_false_2; [done|]. by intros [? ?].
Qed.

Lemma cargar_datos_con_archivo self w :
  is_Some (archivos w !! archivo_datos self) ->
  cargar_datos self w =
    match leer_datos self w with
    | (Ok g, w') => (Ok g, w')
    | (Raise _, w') => (Ok (con_gastos [] self), w')
    end.
Proof.
  intros H. unfold cargar_datos, bind, os_path_exists.
  rewrite bool_decide_eq_true_2 by done. reflexivity.
Qed.

Lemma leer_datos_archivos self w r w' :
  leer_datos self w = (r, w') -> archivos w' = archivos w.
Proof.
  unfold leer_datos, bind, json_load, lift, ret.
  destruct (archivos w !! archivo_datos self) as [[e|v]|]; try (by intros [= <- <-]).
  destruct (iterar v) as [ds|e]; [|by intros [= <- <-]].
  destruct (mapM Gasto_from_dict ds w) as [[gs|e] w1] eqn:Hm;
    apply mapM_from_dict_archivos in Hm; by intros [= <- <-].
Qed.

Lemma leer_datos_fechado self w g w' :
  leer_datos self w = (Ok g, w') ->
  Forall fechado (gastos g) /\ archivo_datos g = archivo_datos self.
Proof.
  unfold leer_datos, bind, json_load, lift, ret.
  destruct (archivos w !! archivo_datos self) as [[e|v]|]; try done.
  destruct (iterar v) as [ds|e]; [|done].
  destruct (mapM Gasto_from_dict ds w) as [[gs|e] w1] eqn:Hm; [|done].
  intros [= <- <-]. apply mapM_from_dict_fechado in Hm as [Hf _]. done.
Qed.

Lemma cargar_datos_total self w :
  exists g w', cargar_datos self w = (Ok g, w') /\ archivos w' = archivos w
    /\ archivo_datos g = archivo_datos self
    /\ (Forall fechado (gastos self) -> Forall fechado (gastos g)).
Proof.
  destruct (archivos w !! archivo_datos self) as [c|] eqn:Hf.
  - rewrite cargar_datos_con_archivo by (rewrite Hf; eauto).
    destruct (leer_datos self w) as [[g|e] w1] eqn:Hl.
    + exists g, w1. pose proof (leer_datos_archivos _ _ _ _ Hl).
      apply leer_datos_fechado in Hl as [? ?]. done.
    + exists (con_gastos [] self), w1. apply leer_datos_archivos in Hl.
      repeat split; [done|]. intros _. constructor.
  - rewrite cargar_datos_sin_archivo by done. by exists self, w.
Qed.

(** C8. Constructing a ledger returns normally for every user name and every
    state of the files; without a file for that user the ledger is empty (and
    nothing else changes); and whenever the load inside the [try] raises, for
    whatever exception, the ledger is empty as well. The files are left as
    they were in every case. *)
Theorem GestorGastos_init_never_raises usuario w :
  (exists g w', GestorGastos_init usuario w = (Ok g, w') /\ archivos w' = archivos w)
  /\ (archivos w !! archivo_datos (nuevo_gestor usuario) = None ->
      GestorGastos_init usuario w = (Ok (nuevo_gestor usuario), w))
  /\ (forall e w', leer_datos (nuevo_gestor usuario) w = (Raise e, w') ->
      GestorGastos_init usuario w = (Ok (nuevo_gestor usuario), w')).
Proof.
  unfold GestorGastos_init. split; [|split].
  - destruct (cargar_datos_total (nuevo_gestor usuario) w) as (g & w' & H & Ha & _).
    by exists g, w'.
  - apply cargar_datos_sin_archivo.
  - intros e w' Hl. destruct (archivos w !! archivo_datos (nuevo_gestor usuario)) eqn:Hf.
    + rewrite cargar_datos_con_archivo by (rewrite Hf; eauto). by rewrite Hl.
    + rewrite cargar_datos_sin_archivo by done.
      revert Hl. unfold leer_datos, bind, json_load. rewrite Hf. by intros [= _ <-].
Qed.

Lemma GestorGastos_init_never_raises_witness :
  GestorGastos_init "ana" mundo0 = (Ok (nuevo_gestor "ana"), mundo0)
  /\ GestorGastos_init "ana" mundo_corrupto = (Ok (nuevo_gestor "ana"), mundo_corrupto).
Proof.
  split.
  - destruct (GestorGastos_init_never_raises "ana" mundo0) as (_ & H & _).
    apply H. vm_compute. reflexivity.
  - destruct (GestorGastos_init_never_raises "ana" mundo_corrupto) as (_ & _ & H).
    apply (H JSONDecodeError). vm_compute. reflexivity.
Defined.

(** C10. When the file of the user holds a sequence and some element of it
    lacks one of the four fields (or is not an object), construction returns
    the empty ledger: no record that precedes the bad element is kept. *)
Theorem cargar_datos_all_or_nothing usuario w l :
  archivos w !! archivo_datos (nuevo_gestor usuario) = Some (Documento (VList l)) ->
  (exists d, d ∈ l /\ tiene_los_campos d = false) ->
  exists g w', GestorGastos_init usuario w = (Ok g, w') /\ gastos g = []
               /\ archivos w' = archivos w.
Proof.
  intros Hf Hbad. unfold GestorGastos_init.
  rewrite cargar_datos_con_archivo by (rewrite Hf; eauto).
  destruct (leer_datos (nuevo_gestor usuario) w) as [[g|e] w1] eqn:Hl.
  - exfalso. revert Hl. unfold leer_datos, bind, json_load, lift. rewrite Hf.
    cbn [iterar]. destruct (mapM_from_dict_malformado l w Hbad) as (e & w' & ->). done.
  - apply leer_datos_archivos in Hl. by eexists _, _.
Qed.

Lemma cargar_datos_all_or_nothing_witness :
  exists g w', GestorGastos_init "ana" mundo_truncado = (Ok g, w') /\ gastos g = []
               /\ archivos w' = archivos mundo_truncado.
Proof.
  eapply (cargar_datos_all_or_nothing "ana" mundo_truncado).
  - vm_compute. reflexivity.
  - eexists. split; [apply list_elem_of_further, list_elem_of_here|].
    vm_compute. reflexivity.
Defined.

(** The other direction: a sequence whose elements all have the four fields
    loads whole, one record per element. *)
Lemma Gasto_from_dict_bien_formado d w :
  tiene_los_campos d = true -> exists g w', Gasto_from_dict d w = (Ok g, w').
Proof.
  destruct d as [| | | | | |m]; try done.
  cbn [tiene_los_campos campos forallb]. rewrite !andb_true_iff.
  intros (H1 & H2 & H3 & H4 & _).
  apply bool_decide_eq_true_1 in H1 as [v1 E1], H2 as [v2 E2], H3 as [v3 E3], H4 as [v4 E4].
  unfold Gasto_from_dict, bind, lift, getitem. rewrite E1, E2, E3, E4.
  destruct (Gasto_init_fechado v1 v2 v3 v4 w) as (g & w' & -> & _). eauto.
Qed.

Lemma cargar_datos_bien_formado usuario w l :
  archivos w !! archivo_datos (nuevo_gestor usuario) = Some (Documento (VList l)) ->
  forallb tiene_los_campos l = true ->
  exists g w', GestorGastos_init usuario w = (Ok g, w') /\ length (gastos g) = length l.
Proof.
  intros Hf Hl. unfold GestorGastos_init.
  rewrite cargar_datos_con_archivo by (rewrite Hf; eauto).
  unfold leer_datos, bind, json_load, lift. rewrite Hf. cbn [iterar].
  assert (exists gs w', mapM Gasto_from_dict l w = (Ok gs, w')) as (gs & w' & Hm).
  { clear Hf. revert w. induction l as [|d l IH]; intros w; [by eexists _, _|].
    cbn [forallb] in Hl. apply andb_true_iff in Hl as [Hd Hl].
    destruct (Gasto_from_dict_bien_formado d w Hd) as (g & w1 & Hg).
    destruct (IH Hl w1) as (gs & w2 & Hgs).
    cbn [mapM]. unfold bind at 1. rewrite Hg. unfold bind at 1. rewrite Hgs.
    by eexists _, _. }
  rewrite Hm. apply mapM_from_dict_fechado in Hm as [_ Hlen]. by eexists _, _.
Qed.

(** ** Saving and loading again *)

Lemma alcanzable_inv g :
  alcanzable g ->
  Forall fechado (gastos g)
  /\ exists usuario, archivo_datos g = archivo_datos (nuevo_gestor usuario).
Proof.
  induction 1 as [usuario w g w' Hi | g d m c w g' w' _ [IHf IHa] Ha
                 | g i w g' w' _ [IHf IHa] He].
  - unfold GestorGastos_init in Hi.
    destruct (cargar_datos_total (nuevo_gestor usuario) w) as (g0 & w0 & H0 & _ & Hn & Hf).
    rewrite H0 in Hi. injection Hi as <- <-. split; [|by exists usuario].
    apply Hf. constructor.
  - rewrite agregar_gasto_eq in Ha. injection Ha as <- <-. split; [|done].
    cbn [gastos con_gastos]. apply Forall_app. split; [done|].
    constructor; [reflexivity|constructor].
  - revert He. unfold eliminar_gasto.
    destruct (Z.leb 0 i && Z.ltb i (Z.of_nat (length (gastos g)))).
    + intros [= <- <-]. split; [|done]. cbn [gastos con_gastos]. by apply Forall_delete.
    + by intros [= <- <-].
Qed.

Lemma guardar_init_fechados self usuario w :
  Forall fechado (gastos self) ->
  archivo_datos self = archivo_datos (nuevo_gestor usuario) ->
  exists w', guardar_datos self w = (Ok tt, w')
             /\ GestorGastos_init usuario w' = (Ok self, w').
Proof.
  intros Hf Ha. eexists. split; [reflexivity|].
  unfold GestorGastos_init. rewrite cargar_datos_con_archivo.
  2:{ cbn [archivos con_archivos]. rewrite Ha, lookup_insert_eq. eauto. }
  unfold leer_datos, bind, json_load, lift.
  cbn [archivos con_archivos]. rewrite Ha, lookup_insert_eq. cbn [iterar].
  rewrite mapM_from_dict_to_dict by done.
  unfold ret, con_gastos. rewrite <- Ha. by destruct self.
Qed.

(** C5. For every ledger the program can hold, saving it and then
    constructing a new ledger for the same user gives back the same ledger:
    the same records, with the same four fields, in the same order. *)
Theorem guardar_then_init_round_trip self usuario w :
  alcanzable self ->
  archivo_datos self = archivo_datos (nuevo_gestor usuario) ->
  exists w', guardar_datos self w = (Ok tt, w')
             /\ GestorGastos_init usuario w' = (Ok self, w').
Proof.
  intros Halc Ha. apply alcanzable_inv in Halc as [Hf _].
  by apply guardar_init_fechados.
Qed.

Lemma guardar_then_init_round_trip_witness :
  exists w',
    guardar_datos (con_gastos [gasto_cafe] (nuevo_gestor "ana")) mundo0 = (Ok tt, w')
    /\ GestorGastos_init "ana" w' = (Ok (con_gastos [gasto_cafe] (nuevo_gestor "ana")), w').
Proof.
  apply (guardar_then_init_round_trip
           (con_gastos [gasto_cafe] (nuevo_gestor "ana")) "ana" mundo0).
  - eapply (alc_agregar (nuevo_gestor "ana") (VStr "cafe") (VFloat 3.5) (VStr "Comida")
                        mundo0).
    + eapply (alc_init "ana" mundo0). vm_compute. reflexivity.
    + vm_compute. reflexivity.
  - reflexivity.
Defined.

(** ** Users *)

Lemma cargar_usuarios_guardados w d :
  usuarios_guardados w = Some d -> cargar_usuarios w = (Ok (VDict d), w).
Proof.
  unfold usuarios_guardados, cargar_usuarios, bind, os_path_exists, json_load, ret.
  destruct (archivos w !! USERS_FILE) as [[e|v]|] eqn:Hf; [done| |].
  - destruct v; try done. intros [= ->].
    rewrite bool_decide_eq_true_2 by eauto. by rewrite Hf.
  - intros [= <-]. rewrite bool_decide_eq_false_2; [done|]. by intros [? ?].
Qed.

Lemma usuarios_guardados_con_usuarios d w :
  usuarios_guardados (con_usuarios d w) = Some d.
Proof.
  unfold usuarios_guardados, con_usuarios. cbn [archivos con_archivos].
  by rewrite lookup_insert_eq.
Qed.

Lemma validar_usuario_guardados w d usuario password :
  usuarios_guardados w = Some d ->
  validar_usuario usuario password w =
    (Ok (valor_eq_str (default VNone (d !! usuario)) password), w).
Proof.
  intros Hd. unfold validar_usuario, bind. by rewrite (cargar_usuarios_guardados w d).
Qed.

Lemma valor_eq_str_true v s : valor_eq_str v s = true <-> v = VStr s.
Proof.
  destruct v; cbn; try (split; [done|by intros [=]]).
  rewrite String.eqb_eq. split; [by intros ->|by intros [= ->]].
Qed.

Lemma registrar_usuario_existente w d usuario password :
  usuarios_guardados w = Some d -> is_Some (d !! usuario) ->
  registrar_usuario usuario password w = (Ok false, w).
Proof.
  intros Hd Hu. unfold registrar_usuario, bind.
  rewrite (cargar_usuarios_guardados w d) by done.
  unfold lift, contiene. by rewrite bool_decide_eq_true_2.
Qed.

Lemma registrar_usuario_nuevo w d usuario password :
  usuarios_guardados w = Some d -> d !! usuario = None ->
  registrar_usuario usuario password w =
    (Ok true, con_usuarios (<[usuario := VStr password]> d) w).
Proof.
  intros Hd Hu. unfold registrar_usuario, bind.
  rewrite (cargar_usuarios_guardados w d) by done.
  unfold lift, contiene. rewrite bool_decide_eq_false_2; [done|].
  rewrite Hu. by intros [? ?].
Qed.

(** C3. With a mapping of users in the store, [validar_usuario] returns
    normally and changes nothing; its answer is true exactly when the name is
    a key whose stored value is the string given as password, compared
    character by character (so letter case counts); for a name that is not a
    key the answer is false. *)
Theorem validar_usuario_iff w d usuario password :
  usuarios_guardados w = Some d ->
  exists b, validar_usuario usuario password w = (Ok b, w)
            /\ (b = true <-> d !! usuario = Some (VStr password))
            /\ (d !! usuario = None -> b = false).
Proof.
  intros Hd. rewrite (validar_usuario_guardados w d) by done.
  eexists. split; [reflexivity|]. split.
  - rewrite valor_eq_str_true. destruct (d !! usuario) as [v|]; cbn.
    + split; [by intros ->|by intros [= ->]].
    + split; [done|done].
  - by intros ->.
Qed.

Lemma validar_usuario_iff_witness :
  validar_usuario "alice" "pw1" mundo_alice = (Ok true, mundo_alice)
  /\ validar_usuario "alice" "PW1" mundo_alice = (Ok false, mundo_alice)
  /\ validar_usuario "bob" "pw1" mundo_alice = (Ok false, mundo_alice).
Proof.
  pose proof (usuarios_guardados_con_usuarios {[ "alice" := VStr "pw1" ]} mundo0) as Hd.
  split; [|split].
  - destruct (validar_usuario_iff mundo_alice _ "alice" "pw1" Hd) as (b & -> & Hb & _).
    by rewrite (proj2 Hb).
  - destruct (validar_usuario_iff mundo_alice _ "alice" "PW1" Hd) as (b & -> & Hb & _).
    destruct b; [|done]. by pose proof (proj1 Hb eq_refl).
  - destruct (validar_usuario_iff mundo_alice _ "bob" "pw1" Hd) as (b & -> & _ & Hb).
    by rewrite Hb.
Defined.

(** C2. With a mapping of users in the store: [registrar_usuario] answers
    false for a name that is already a key, and changes nothing; for a new
    name it answers true and writes the mapping extended with the pair, after
    which [validar_usuario] with the same name and password answers true; and
    whatever the first registration of a name answered, registering that
    name again answers false. *)
Theorem registrar_usuario_once w d usuario password :
  usuarios_guardados w = Some d ->
  (is_Some (d !! usuario) -> registrar_usuario usuario password w = (Ok false, w))
  /\ (d !! usuario = None ->
      let w' := con_usuarios (<[usuario := VStr password]> d) w in
      registrar_usuario usuario password w = (Ok true, w')
      /\ usuarios_guardados w' = Some (<[usuario := VStr password]> d)
      /\ validar_usuario usuario password w' = (Ok true, w'))
  /\ (exists b w', registrar_usuario usuario password w = (Ok b, w')
      /\ forall password', registrar_usuario usuario password' w' = (Ok false, w')).
Proof.
  intros Hd. split; [|split].
  - by apply registrar_usuario_existente.
  - intros Hu w'. split; [by apply registrar_usuario_nuevo|].
    pose proof (usuarios_guardados_con_usuarios (<[usuario := VStr password]> d) w) as Hd'.
    split; [done|].
    rewrite (validar_usuario_guardados _ _ _ _ Hd'), lookup_insert_eq. cbn.
    by rewrite String.eqb_refl.
  - destruct (d !! usuario) as [v|] eqn:Hu.
    + exists false, w. split.
      * apply (registrar_usuario_existente w d); [done|]. rewrite Hu. eauto.
      * intros p'. apply (registrar_usuario_existente w d); [done|]. rewrite Hu. eauto.
    + eexists true, _. split; [by apply registrar_usuario_nuevo|].
      intros p'. eapply registrar_usuario_existente.
      * apply usuarios_guardados_con_usuarios.
      * rewrite lookup_insert_eq. eauto.
Qed.

Lemma registrar_usuario_once_witness :
  registrar_usuario "alice" "pw1" mundo0 = (Ok true, mundo_alice)
  /\ validar_usuario "alice" "pw1" mundo_alice = (Ok true, mundo_alice)
  /\ registrar_usuario "alice" "pw2" mundo_alice = (Ok false, mundo_alice).
Proof.
  assert (usuarios_guardados mundo0 = Some ∅) as H0 by reflexivity.
  destruct (registrar_usuario_once mundo0 ∅ "alice" "pw1" H0) as (_ & Hn & _).
  destruct (Hn (lookup_empty _)) as (Hr & Hg & Hv).
  split; [exact Hr|]. split; [exact Hv|].
  destruct (registrar_usuario_once mundo_alice _ "alice" "pw2" Hg) as (He & _ & _).
  apply He. rewrite lookup_insert_eq. eauto.
Defined.

(** ** The total *)

Lemma fold_sum_paso_floats ms a :
  fold_left sum_paso (VFloat <$> ms) (Ok (NFloat a)) =
    Ok (NFloat (fold_left PrimFloat.add ms a)).
Proof.
  revert a. induction ms as [|m ms IH]; intros a; [done|].
  cbn [fmap list_fmap fold_left sum_paso numero_de num_add]. apply IH.
Qed.

Lemma sum_hasta_3_11_floats ms :
  sum_hasta_3_11 (VFloat <$> ms) = Ok (suma_de_montos CPython_hasta_3_11 ms).
Proof.
  unfold sum_hasta_3_11. destruct ms as [|m ms]; [done|].
  cbn [fmap list_fmap fold_left sum_paso numero_de num_add].
  change (float_de_int 0) with (Ok 0%float).
  cbn iota. by rewrite fold_sum_paso_floats.
Qed.

Lemma fold_sum_paso_3_12_floats LONG_MAX ms f c :
  match fold_left (sum_paso_3_12 LONG_MAX) (VFloat <$> ms) (Ok (Bucle_double f c)) with
  | Ok st => Ok (sum_fin st)
  | Raise e => Raise e
  end = Ok (VFloat (neumaier_desde f c ms)).
Proof.
  revert f c. induction ms as [|m ms IH]; intros f c; [done|].
  cbn [fmap list_fmap fold_left sum_paso_3_12 neumaier_desde].
  destruct (neumaier f c m) as [t c']. apply IH.
Qed.

Lemma sum_desde_3_12_floats LONG_MAX ms :
  sum_desde_3_12 LONG_MAX (VFloat <$> ms)
  = Ok (suma_de_montos (CPython_desde_3_12 LONG_MAX) ms).
Proof.
  unfold sum_desde_3_12. destruct ms as [|m ms]; [done|].
  cbn [fmap list_fmap fold_left sum_paso_3_12 entero_de].
  change (float_de_int 0) with (Ok 0%float).
  cbn iota. by rewrite fold_sum_paso_3_12_floats.
Qed.

Lemma sum_floats py ms : sum py (VFloat <$> ms) = Ok (suma_de_montos py ms).
Proof.
  destruct py as [|LONG_MAX]; [apply sum_hasta_3_11_floats|apply sum_desde_3_12_floats].
Qed.

Lemma fold_suma_exacta_Qeq ms q q' :
  Qeq q q' ->
  Qeq (fold_left (fun q m => Qplus q (racional m)) ms q)
      (fold_left (fun q m => Qplus q (racional m)) ms q').
Proof.
  revert q q'. induction ms as [|m ms IH]; intros q q' Hq; [done|].
  cbn [fold_left]. apply IH. by rewrite Hq.
Qed.

Lemma sin_redondeo_desde_exacta f c ms :
  sin_redondeo_desde f c ms = true ->
  PrimFloat.eqb c 0%float = true ->
  neumaier_desde f c ms = fold_left PrimFloat.add ms f
  /\ Qeq (racional (fold_left PrimFloat.add ms f))
         (fold_left (fun q m => Qplus q (racional m)) ms (racional f)).
Proof.
  revert f c. induction ms as [|x ms IH]; intros f c Hs Hc.
  - cbn [neumaier_desde fold_left]. unfold con_compensacion. rewrite Hc.
    split; [done|]. apply Qeq_refl.
  - cbn [sin_redondeo_desde neumaier_desde fold_left] in *.
    destruct (neumaier f c x) as [t c'] eqn:Hn.
    assert (t = PrimFloat.add f x) as -> by (unfold neumaier in Hn; congruence).
    apply andb_true_iff in Hs as [Hs Hrest]. apply andb_true_iff in Hs as [Hex Hc'].
    destruct (IH _ _ Hrest Hc') as [IH1 IH2]. split; [done|].
    unfold suma_sin_redondeo in Hex. apply andb_true_iff in Hex as [_ Hq].
    apply Qeq_bool_iff in Hq.
    eapply Qeq_trans; [exact IH2|]. by apply fold_suma_exacta_Qeq.
Qed.

Lemma sin_redondeo_exacta ms :
  sin_redondeo ms = true ->
  suma_compensada ms = suma_ingenua ms
  /\ Qeq (racional (suma_ingenua ms)) (suma_exacta ms).
Proof.
  destruct ms as [|x ms]; [by intros _|].
  cbn [sin_redondeo]. intros Hs. apply andb_true_iff in Hs as [Hex Hrest].
  destruct (sin_redondeo_desde_exacta _ _ _ Hrest eq_refl) as [H1 H2].
  split; [exact H1|]. unfold suma_ingenua, suma_exacta. cbn [fold_left].
  eapply Qeq_trans; [exact H2|]. apply fold_suma_exacta_Qeq.
  unfold suma_sin_redondeo in Hex. apply andb_true_iff in Hex as [_ Hq].
  by apply Qeq_bool_iff in Hq.
Qed.

Lemma agregar_varios_montos self xs w :
  exists g w', agregar_varios self xs w = (Ok g, w')
    /\ monto <$> gastos g = (monto <$> gastos self) ++ (VFloat <$> montos_de xs).
Proof.
  revert self w. induction xs as [|[[d m] c] xs IH]; intros self w.
  - exists self, w. split; [done|]. cbn. by rewrite app_nil_r.
  - cbn [agregar_varios]. unfold bind at 1. rewrite agregar_gasto_eq.
    match goal with |- context [agregar_varios ?g xs ?w1] =>
      destruct (IH g w1) as (g' & w' & -> & Hm) end.
    exists g', w'. split; [done|]. rewrite Hm. cbn [gastos con_gastos].
    rewrite fmap_app. cbn. by rewrite <- app_assoc.
Qed.

(** C6, as stated, does not hold: the amounts are doubles and their sum is
    rounded.  After 0.1 and 0.2 have been added to an empty ledger, [total]
    is 0.30000000000000004 on every interpreter, which is not the exact sum
    of the two amounts. *)
Lemma total_not_exact_sum :
  exists g w',
    agregar_varios gestor_ana dos_decimos mundo0 = (Ok g, w')
    /\ total cpython_3_11 g = Ok (VFloat 0.30000000000000004)
    /\ total cpython_3_12 g = Ok (VFloat 0.30000000000000004)
    /\ ~ Qeq (racional 0.30000000000000004) (suma_exacta (montos_de dos_decimos)).
Proof.
  eexists _, _. split; [vm_compute; reflexivity|].
  split; [vm_compute; reflexivity|]. split; [vm_compute; reflexivity|].
  apply Qeq_bool_neq. vm_compute. reflexivity.
Qed.

Lemma fold_sum_paso_ints zs a :
  fold_left sum_paso (VInt <$> zs) (Ok (NInt a)) = Ok (NInt (fold_left Z.add zs a)).
Proof.
  revert a. induction zs as [|z zs IH]; intros a; [done|].
  cbn [fmap list_fmap fold_left sum_paso numero_de num_add]. apply IH.
Qed.

Lemma fold_sum_paso_3_12_ints LONG_MAX zs st a :
  st = Bucle_long a \/ st = Bucle_general (NInt a) ->
  match fold_left (sum_paso_3_12 LONG_MAX) (VInt <$> zs) (Ok st) with
  | Ok st' => Ok (sum_fin st')
  | Raise e => Raise e
  end = Ok (VInt (fold_left Z.add zs a)).
Proof.
  revert st a. induction zs as [|z zs IH]; intros st a Hst.
  - by destruct Hst as [->| ->].
  - cbn [fmap list_fmap fold_left]. destruct Hst as [->| ->].
    + cbn [sum_paso_3_12 entero_de].
      destruct (cabe_en_long LONG_MAX z && cabe_en_long LONG_MAX (a + z));
        apply IH; auto.
    + cbn [sum_paso_3_12 numero_de num_add en_general]. apply IH; auto.
Qed.

Lemma sum_ints py zs : sum py (VInt <$> zs) = Ok (VInt (fold_left Z.add zs 0)).
Proof.
  destruct py as [|LONG_MAX]; cbn [sum].
  - unfold sum_hasta_3_11. by rewrite fold_sum_paso_ints.
  - unfold sum_desde_3_12. apply fold_sum_paso_3_12_ints. by left.
Qed.

(** C6, amended. [total] returns the integer 0 for an empty ledger.  For a
    ledger whose amounts are the floats [ms] it returns the float that the
    built-in [sum] makes of the amounts in the order of the ledger: the
    amounts added from left to right as doubles up to CPython 3.11, the same
    with Neumaier's compensation from CPython 3.12 on.  When no addition
    rounds, that float is the same on every interpreter and is the exact sum
    of the amounts.  After a sequence of expenses has been added to the
    ledger, [total] is that sum of the old amounts followed by the added
    ones; from an empty ledger, of the amounts added.  For a ledger whose
    amounts are integers, [total] is their exact sum. *)
Theorem total_is_float_sum py self :
  (forall ms, monto <$> gastos self = VFloat <$> ms ->
     total py self = Ok (suma_de_montos py ms)
     /\ (sin_redondeo ms = true ->
         suma_de_floats py ms = suma_ingenua ms
         /\ Qeq (racional (suma_de_floats py ms)) (suma_exacta ms))
     /\ forall xs w, exists g w',
          agregar_varios self xs w = (Ok g, w')
          /\ total py g = Ok (suma_de_montos py (ms ++ montos_de xs)))
  /\ (forall zs, monto <$> gastos self = VInt <$> zs ->
       total py self = Ok (VInt (fold_left Z.add zs 0))).
Proof.
  unfold total. split.
  - intros ms Hm. split; [|split].
    + rewrite Hm. apply sum_floats.
    + intros Hs. destruct (sin_redondeo_exacta ms Hs) as [Hc Hq].
      destruct py as [|LONG_MAX]; cbn [suma_de_floats]; [done|]. by rewrite Hc.
    + intros xs w. destruct (agregar_varios_montos self xs w) as (g & w' & Hg & Hgm).
      exists g, w'. split; [done|].
      rewrite Hgm, Hm, <- fmap_app. apply sum_floats.
  - intros zs Hz. rewrite Hz. apply sum_ints.
Qed.

Lemma total_is_float_sum_witness :
  total cpython_3_11 gestor_ana = Ok (VInt 0)
  /\ total cpython_3_12 gestor_ana = Ok (VInt 0)
  /\ (exists g w', agregar_varios gestor_ana tres_gastos mundo0 = (Ok g, w')
                   /\ total cpython_3_11 g = Ok (VFloat 16%float))
  /\ (exists g w', agregar_varios gestor_ana tres_gastos mundo0 = (Ok g, w')
                   /\ total cpython_3_12 g = Ok (VFloat 16%float))
  /\ Qeq (racional 16%float) (suma_exacta [10.5; 5.25; 0.25]%float).
Proof.
  destruct (total_is_float_sum cpython_3_11 gestor_ana) as [H11 _].
  destruct (H11 [] eq_refl) as (H0 & _ & Hs).
  destruct (total_is_float_sum cpython_3_12 gestor_ana) as [H12 _].
  destruct (H12 [] eq_refl) as (H0' & _ & Hs').
  split; [exact H0|]. split; [exact H0'|].
  split; [exact (Hs tres_gastos mundo0)|]. split; [exact (Hs' tres_gastos mundo0)|].
  destruct (total_is_float_sum cpython_3_12 tres_categorias) as [H _].
  destruct (H [10.5; 5.25; 0.25]%float eq_refl) as (_ & Hex & _).
  apply Hex. vm_compute. reflexivity.
Defined.

(** The two families of interpreters differ on everyday amounts. *)
Example sum_depends_on_interpreter :
  sum cpython_3_11 [VFloat 0.1; VFloat 0.2; VFloat 0.3] = Ok (VFloat 0.6000000000000001)
  /\ sum cpython_3_12 [VFloat 0.1; VFloat 0.2; VFloat 0.3] = Ok (VFloat 0.6)
  /\ sum cpython_3_11 [VFloat 1e16; VFloat 1; VFloat 1] = Ok (VFloat 1e16)
  /\ sum cpython_3_12 [VFloat 1e16; VFloat 1; VFloat 1] = Ok (VFloat 10000000000000002).
Proof. repeat split; vm_compute; reflexivity. Qed.

(** ** The categories *)

Lemma str_compare_trans a b c :
  String.compare a b = Lt -> String.compare b c = Lt -> String.compare a c = Lt.
Proof.
  revert b c. induction a as [|x a IH]; intros [|y b] [|z c]; cbn; try done.
  destruct (Ascii.compare x y) eqn:Hxy; try done.
  - apply Ascii.compare_eq_iff in Hxy as ->.
    destruct (Ascii.compare y z); try done. apply IH.
  - destruct (Ascii.compare y z) eqn:Hyz; try done.
    + apply Ascii.compare_eq_iff in Hyz as <-. by rewrite Hxy.
    + unfold Ascii.compare in *. rewrite N.compare_lt_iff in Hxy, Hyz.
      assert (N_of_ascii x < N_of_ascii z)%N as H by lia.
      apply N.compare_lt_iff in H. by rewrite H.
Qed.

Lemma str_lt_trans a b c : str_lt a b -> str_lt b c -> str_lt a c.
Proof.
  unfold str_lt, String.ltb. intros Hab Hbc.
  destruct (String.compare a b) eqn:E1; try done.
  destruct (String.compare b c) eqn:E2; try done.
  by rewrite (str_compare_trans a b c).
Qed.

Lemma str_lt_irrefl a : ~ str_lt a a.
Proof.
  unfold str_lt, String.ltb. pose proof (String.compare_antisym a a) as H.
  destruct (String.compare a a); cbn in H; done.
Qed.

Lemma str_lt_total a b : String.ltb b a = false -> a <> b -> str_lt a b.
Proof.
  unfold str_lt, String.ltb. intros Hba Hne.
  rewrite String.compare_antisym. destruct (String.compare b a) eqn:E; cbn; try done.
  apply String.compare_eq_iff in E. congruence.
Qed.

Lemma existsb_py_eq_strs c s :
  existsb (py_eq (VStr c)) (VStr <$> s) = existsb (String.eqb c) s.
Proof. induction s as [|x s IH]; [done|]. cbn. by rewrite IH. Qed.

Lemma fold_set_add_strs cs acc :
  fold_left set_add (VStr <$> cs) (VStr <$> acc) = VStr <$> fold_left str_set_add cs acc.
Proof.
  revert acc. induction cs as [|c cs IH]; intros acc; [done|].
  cbn [fmap list_fmap fold_left]. unfold set_add at 2, str_set_add at 2.
  rewrite existsb_py_eq_strs. destruct (existsb (String.eqb c) acc); [apply IH|].
  rewrite <- (IH (acc ++ [c])). by rewrite fmap_app.
Qed.

Lemma set_de_strs cs : set_de (VStr <$> cs) = Ok (VStr <$> fold_left str_set_add cs []).
Proof.
  unfold set_de. replace (forallb hashable (VStr <$> cs)) with true.
  - by rewrite <- fold_set_add_strs.
  - symmetry. induction cs; [done|]. done.
Qed.

Lemma existsb_eqb_elem_of (c : string) s : existsb (String.eqb c) s = true <-> c ∈ s.
Proof.
  rewrite existsb_exists. split.
  - intros (x & Hin & Hx). apply String.eqb_eq in Hx as ->. by apply list_elem_of_In.
  - intros Hin. exists c. split; [by apply list_elem_of_In|apply String.eqb_refl].
Qed.

Lemma fold_str_set_add cs acc :
  NoDup acc ->
  NoDup (fold_left str_set_add cs acc)
  /\ forall c, c ∈ fold_left str_set_add cs acc <-> c ∈ acc \/ c ∈ cs.
Proof.
  revert acc. induction cs as [|x cs IH]; intros acc Hnd; cbn [fold_left].
  - split; [done|]. intros c. rewrite elem_of_nil. tauto.
  - unfold str_set_add at 2 4. destruct (existsb (String.eqb x) acc) eqn:Hx.
    + apply existsb_eqb_elem_of in Hx. destruct (IH acc Hnd) as [H1 H2].
      split; [done|]. intros c. rewrite H2, elem_of_cons.
      split; [tauto|]. intros [?|[->|?]]; tauto.
    + assert (x ∉ acc) as Hnx.
      { intros Hin. apply existsb_eqb_elem_of in Hin. congruence. }
      destruct (IH (acc ++ [x])) as [H1 H2].
      { apply NoDup_app. split; [done|]. split; [|apply NoDup_singleton].
        intros y Hy Hy'. apply list_elem_of_singleton in Hy' as ->. done. }
      split; [done|]. intros c.
      rewrite H2, elem_of_app, list_elem_of_singleton, elem_of_cons. tauto.
Qed.

Lemma insertar_strs x l : insertar (VStr x) (VStr <$> l) = Ok (VStr <$> str_insertar x l).
Proof.
  induction l as [|y l IH]; [done|].
  cbn [fmap list_fmap insertar str_insertar py_lt].
  destruct (String.ltb y x); [|done]. fold (fmap (M:=list) VStr l). by rewrite IH.
Qed.

Lemma sorted_strs l : sorted (VStr <$> l) = Ok (VStr <$> str_sorted l).
Proof.
  induction l as [|x l IH]; [done|].
  cbn [fmap list_fmap sorted str_sorted]. fold (fmap (M:=list) VStr l).
  rewrite IH. apply insertar_strs.
Qed.

Lemma elem_of_str_insertar c x l : c ∈ str_insertar x l <-> c = x \/ c ∈ l.
Proof.
  induction l as [|y l IH]; cbn [str_insertar].
  - rewrite list_elem_of_singleton, elem_of_nil. tauto.
  - destruct (String.ltb y x); rewrite !elem_of_cons; [rewrite IH|]; tauto.
Qed.

Lemma elem_of_str_sorted c l : c ∈ str_sorted l <-> c ∈ l.
Proof.
  induction l as [|x l IH]; [done|].
  cbn [str_sorted]. rewrite elem_of_str_insertar, elem_of_cons, IH. tauto.
Qed.

Lemma str_insertar_sorted x l :
  x ∉ l -> StronglySorted str_lt l -> StronglySorted str_lt (str_insertar x l).
Proof.
  intros Hx Hs. induction Hs as [|y l Hs IH Hy]; cbn [str_insertar].
  - repeat constructor.
  - apply not_elem_of_cons in Hx as [Hxy Hxl].
    destruct (String.ltb y x) eqn:Hyx.
    + constructor; [by apply IH|].
      apply Forall_forall. intros c Hc. apply elem_of_str_insertar in Hc as [->|Hc]; [done|].
      by eapply Forall_forall in Hy.
    + assert (str_lt x y) as Hlt by (by apply str_lt_total).
      constructor; [by constructor|]. constructor; [done|].
      eapply Forall_impl; [exact Hy|]. intros c Hc. by eapply str_lt_trans.
Qed.

Lemma str_sorted_sorted l : NoDup l -> StronglySorted str_lt (str_sorted l).
Proof.
  induction 1 as [|x l Hx _ IH]; cbn [str_sorted]; [constructor|].
  apply str_insertar_sorted; [|done]. by rewrite elem_of_str_sorted.
Qed.

Lemma StronglySorted_str_lt_NoDup l : StronglySorted str_lt l -> NoDup l.
Proof.
  induction 1 as [|x l _ IH Hx]; constructor; [|done].
  intros Hin. eapply Forall_forall in Hx; [|done]. by apply str_lt_irrefl in Hx.
Qed.

(** C7. For a ledger whose categories are the strings [cs],
    [obtener_categorias] returns a list of strings that is in strictly
    ascending order (hence without duplicates) and has exactly the strings
    of [cs] as members. *)
Theorem obtener_categorias_sorted_distinct self cs :
  categoria <$> gastos self = VStr <$> cs ->
  exists out, obtener_categorias self = Ok (VStr <$> out)
              /\ StronglySorted str_lt out
              /\ NoDup out
              /\ forall c, c ∈ out <-> c ∈ cs.
Proof.
  intros Hc. unfold obtener_categorias. rewrite Hc, set_de_strs, sorted_strs.
  destruct (fold_str_set_add cs [] (NoDup_nil_2)) as [Hnd Hmem].
  eexists. split; [reflexivity|].
  pose proof (str_sorted_sorted _ Hnd) as Hs.
  split; [done|]. split; [by apply StronglySorted_str_lt_NoDup|].
  intros c. rewrite elem_of_str_sorted, Hmem, elem_of_nil. tauto.
Qed.

Lemma obtener_categorias_sorted_distinct_witness :
  obtener_categorias tres_categorias = Ok [VStr "Comida"; VStr "Otros"]
  /\ exists out, obtener_categorias tres_categorias = Ok (VStr <$> out)
                 /\ StronglySorted str_lt out
                 /\ NoDup out
                 /\ forall c, c ∈ out <-> c ∈ ["Comida"; "Otros"; "Comida"].
Proof.
  split; [vm_compute; reflexivity|].
  apply (obtener_categorias_sorted_distinct tres_categorias ["Comida"; "Otros"; "Comida"]).
  reflexivity.
Defined.

(** The ledger of the example is the one that three additions to an empty
    ledger give. *)
Example agregar_varios_tres_categorias :
  exists g w', agregar_varios gestor_ana tres_gastos mundo0 = (Ok g, w')
               /\ obtener_categorias g = Ok [VStr "Comida"; VStr "Otros"]
               /\ categoria <$> gastos g = [VStr "Comida"; VStr "Otros"; VStr "Comida"].
Proof. eexists _, _. split; [vm_compute; reflexivity|]. split; vm_compute; reflexivity. Qed.

(** ** Amounts that are not positive *)

(** C1, as stated, does not hold of [agregar_gasto]: called with the amount
    -1 on an empty ledger it returns normally, and the record is in the
    ledger and in the file. *)
Lemma agregar_gasto_accepts_nonpositive :
  PrimFloat.leb (-1)%float 0%float = true
  /\ exists g w',
       agregar_gasto gestor_ana (VStr "devolucion") (VFloat (-1)) (VStr "Otros") mundo0
         = (Ok g, w')
       /\ monto <$> gastos g = [VFloat (-1)]
       /\ archivos w' !! archivo_datos g
            = Some (Documento (VList (Gasto_to_dict <$> gastos g)))
       /\ length (gastos g) = 1%nat.
Proof.
  split; [reflexivity|]. rewrite agregar_gasto_eq. eexists _, _.
  split; [reflexivity|]. cbn [gastos con_gastos archivo_datos archivos con_archivos].
  split; [reflexivity|]. split; [by rewrite lookup_insert_eq|reflexivity].
Qed.

(** C1, amended. [agregar_gasto] checks nothing: it appends and saves a
    record for any amount. The check is in the handler of the form, its
    caller: when the text of the amount converts to a float [m] with
    [m <= 0], the handler answers "Monto debe ser mayor a 0", does not call
    [agregar_gasto], and leaves ledger and files as they were; when the text
    does not convert, it answers "Monto inválido", again without a change;
    otherwise it calls [agregar_gasto] with [m]. *)
Theorem enviar_nuevo_gasto_rejects_nonpositive
    (float_de_texto : string -> option float) gestor desc monto cat w :
  (forall m, agregar_gasto gestor (VStr desc) (VFloat m) (VStr cat) w =
     (Ok (con_gastos (gastos gestor ++
            [{| descripcion := VStr desc; monto := VFloat m;
                categoria := VStr cat; fecha := ahora w |}]) gestor),
      snd (agregar_gasto gestor (VStr desc) (VFloat m) (VStr cat) w)))
  /\ (forall m, float_de_texto monto = Some m -> PrimFloat.leb m 0%float = true ->
      enviar_nuevo_gasto float_de_texto gestor desc monto cat w
        = (Ok (Monto_debe_ser_mayor_a_0, gestor), w))
  /\ (float_de_texto monto = None ->
      enviar_nuevo_gasto float_de_texto gestor desc monto cat w
        = (Ok (Monto_invalido, gestor), w))
  /\ (forall m, float_de_texto monto = Some m -> PrimFloat.leb m 0%float = false ->
      exists g w', agregar_gasto gestor (VStr desc) (VFloat m) (VStr cat) w = (Ok g, w')
                   /\ enviar_nuevo_gasto float_de_texto gestor desc monto cat w
                        = (Ok (Gasto_agregado, g), w')).
Proof.
  split; [|split; [|split]].
  - intros m. by rewrite agregar_gasto_eq.
  - intros m Hm Hle. unfold enviar_nuevo_gasto. by rewrite Hm, Hle.
  - intros Hm. unfold enviar_nuevo_gasto. by rewrite Hm.
  - intros m Hm Hle. unfold enviar_nuevo_gasto. rewrite Hm, Hle.
    unfold bind. rewrite agregar_gasto_eq. by eexists _, _.
Qed.

Lemma enviar_nuevo_gasto_rejects_nonpositive_witness :
  enviar_nuevo_gasto float_de_dos_textos gestor_ana "devolucion" "-1" "Otros" mundo0
    = (Ok (Monto_debe_ser_mayor_a_0, gestor_ana), mundo0)
  /\ enviar_nuevo_gasto float_de_dos_textos gestor_ana "devolucion" "uno" "Otros" mundo0
       = (Ok (Monto_invalido, gestor_ana), mundo0)
  /\ exists g w',
       agregar_gasto gestor_ana (VStr "cafe") (VFloat 3.5) (VStr "Comida") mundo0 = (Ok g, w')
       /\ enviar_nuevo_gasto float_de_dos_textos gestor_ana "cafe" "3.50" "Comida" mundo0
            = (Ok (Gasto_agregado, g), w').
Proof.
  split; [|split].
  - destruct (enviar_nuevo_gasto_rejects_nonpositive
                float_de_dos_textos gestor_ana "devolucion" "-1" "Otros" mundo0)
      as (_ & H & _).
    apply (H (-1)%float); reflexivity.
  - destruct (enviar_nuevo_gasto_rejects_nonpositive
                float_de_dos_textos gestor_ana "devolucion" "uno" "Otros" mundo0)
      as (_ & _ & H & _).
    apply H. reflexivity.
  - destruct (enviar_nuevo_gasto_rejects_nonpositive
                float_de_dos_textos gestor_ana "cafe" "3.50" "Comida" mundo0)
      as (_ & _ & _ & H).
    apply (H 3.5%float); reflexivity.
Defined.

(** * Further properties of the code *)

(** ** Records and their stored form *)

(** X1. [from_dict] applied to what [to_dict] made of a record gives the
    record back, and reads no clock, when the date of the record is a value
    that Python takes as true; when it is not (an empty string, [None], 0),
    the record comes back with the time of the clock as its date. *)
Theorem from_dict_of_to_dict g w :
  Gasto_from_dict (Gasto_to_dict g) w =
    if truthy (fecha g) then (Ok g, w) else (Ok (con_fecha (ahora w) g), tic w).
Proof.
  destruct (getitem_to_dict g) as (Hd & Hm & Hc & Hf).
  unfold Gasto_from_dict, bind, lift. rewrite Hd, Hm, Hc, Hf.
  destruct (truthy (fecha g)) eqn:Ht.
  - rewrite Gasto_init_con_fecha by done. by destruct g.
  - by rewrite Gasto_init_sin_fecha.
Qed.

(** X2. [from_dict] returns a record exactly for the objects that have the
    four keys; the record then carries the values of "descripcion", "monto"
    and "categoria" as they are, of whatever type, and a date that Python
    takes as true.  On any other value it raises before it reads the clock:
    [KeyError] for an object, [TypeError] for a value that is not one. *)
Theorem from_dict_needs_four_keys d w :
  (tiene_los_campos d = true ->
     exists m g w', d = VDict m /\ Gasto_from_dict d w = (Ok g, w')
       /\ m !! "descripcion" = Some (descripcion g)
       /\ m !! "monto" = Some (monto g)
       /\ m !! "categoria" = Some (categoria g)
       /\ fechado g)
  /\ (tiene_los_campos d = false ->
        Gasto_from_dict d w = (Raise (error_de_campos d), w)).
Proof.
  split.
  - destruct d as [| | | | | |m]; try done.
    cbn [tiene_los_campos campos forallb]. rewrite !andb_true_iff.
    intros (H1 & H2 & H3 & H4 & _).
    apply bool_decide_eq_true_1 in H1 as [v1 E1], H2 as [v2 E2],
      H3 as [v3 E3], H4 as [v4 E4].
    unfold Gasto_from_dict, bind, lift, getitem. rewrite E1, E2, E3, E4.
    destruct (Gasto_init_fechado v1 v2 v3 v4 w) as (g & w' & -> & Hg & <- & <- & <- & _).
    by exists m, g, w'.
  - unfold Gasto_from_dict, bind, lift, getitem.
    destruct d as [| | | | | |m]; try done.
    cbn [tiene_los_campos campos forallb error_de_campos].
    destruct (m !! "descripcion"); [|done].
    destruct (m !! "monto"); [|done].
    destruct (m !! "categoria"); [|done].
    destruct (m !! "fecha"); [|done].
    rewrite !bool_decide_eq_true_2 by eauto. done.
Qed.

Lemma from_dict_needs_four_keys_witness :
  (exists m g w', Gasto_to_dict gasto_cafe = VDict m
     /\ Gasto_from_dict (Gasto_to_dict gasto_cafe) mundo0 = (Ok g, w')
     /\ m !! "descripcion" = Some (descripcion g)
     /\ m !! "monto" = Some (monto g)
     /\ m !! "categoria" = Some (categoria g)
     /\ fechado g)
  /\ Gasto_from_dict (VDict {[ "descripcion" := VStr "bus" ]}) mundo0
       = (Raise KeyError, mundo0)
  /\ Gasto_from_dict (VStr "bus") mundo0 = (Raise TypeError, mundo0).
Proof.
  split; [|split].
  - apply (from_dict_needs_four_keys (Gasto_to_dict gasto_cafe) mundo0).
    vm_compute. reflexivity.
  - apply (from_dict_needs_four_keys (VDict {[ "descripcion" := VStr "bus" ]}) mundo0).
    vm_compute. reflexivity.
  - apply (from_dict_needs_four_keys (VStr "bus") mundo0). reflexivity.
Defined.

(** ** What a load makes of the stored document *)

Lemma mapM_from_dict_strs (ss : list string) w :
  mapM Gasto_from_dict (VStr <$> ss) w =
    match ss with [] => (Ok [], w) | _ :: _ => (Raise TypeError, w) end.
Proof. by destruct ss. Qed.

(** X3. When the file of the user holds a document that is not a sequence
    (an object, a string, a number, a boolean, [null]), construction returns
    the empty ledger and changes nothing. *)
Theorem cargar_datos_not_a_list usuario w v :
  archivos w !! archivo_de usuario = Some (Documento v) ->
  (forall l, v <> VList l) ->
  GestorGastos_init usuario w = (Ok (nuevo_gestor usuario), w).
Proof.
  intros Hf Hv. unfold GestorGastos_init.
  rewrite cargar_datos_con_archivo by (unfold archivo_de in Hf; rewrite Hf; eauto).
  unfold leer_datos, bind, json_load, lift. unfold archivo_de in Hf. rewrite Hf.
  destruct v as [| | | |s|l|d]; try done.
  - cbn [iterar]. by destruct (list_ascii_of_string s).
  - by destruct (Hv l).
  - cbn [iterar]. rewrite mapM_from_dict_strs. by destruct ((map_to_list d).*1).
Qed.

Lemma cargar_datos_not_a_list_witness :
  GestorGastos_init "ana"
    (con_archivos {[ "gastos_ana.json" := Documento (Gasto_to_dict gasto_cafe) ]} mundo0)
  = (Ok (nuevo_gestor "ana"),
     con_archivos {[ "gastos_ana.json" := Documento (Gasto_to_dict gasto_cafe) ]} mundo0).
Proof.
  apply (cargar_datos_not_a_list "ana" _ (Gasto_to_dict gasto_cafe)).
  - vm_compute. reflexivity.
  - intros l. unfold Gasto_to_dict. discriminate.
Defined.

(** ** Memory and file after a change *)

Lemma GestorGastos_init_leer_raise usuario w e w1 :
  leer_datos (nuevo_gestor usuario) w = (Raise e, w1) ->
  GestorGastos_init usuario w = (Ok (nuevo_gestor usuario), w1).
Proof.
  intros Hl. unfold GestorGastos_init.
  destruct (archivos w !! archivo_datos (nuevo_gestor usuario)) eqn:Hf.
  - rewrite cargar_datos_con_archivo by (rewrite Hf; eauto). by rewrite Hl.
  - rewrite cargar_datos_sin_archivo by done.
    revert Hl. unfold leer_datos, bind, json_load. rewrite Hf. by intros [= _ <-].
Qed.

Lemma guardar_datos_eq self w :
  guardar_datos self w =
    (Ok tt, con_archivos (<[archivo_datos self := documento_de (gastos self)]> (archivos w)) w).
Proof. reflexivity. Qed.

(** X4. After an addition, and after a removal at an index in range, the
    file agrees with the memory: for a ledger the program can hold,
    constructing a new ledger for the same user right after the change gives
    the very ledger that the change left. *)
Theorem change_then_init self usuario :
  alcanzable self ->
  archivo_datos self = archivo_de usuario ->
  (forall d m c w, exists g w',
      agregar_gasto self d m c w = (Ok g, w')
      /\ GestorGastos_init usuario w' = (Ok g, w'))
  /\ (forall i w, 0 <= i < Z.of_nat (length (gastos self)) -> exists g w',
      eliminar_gasto self i w = (Ok g, w')
      /\ GestorGastos_init usuario w' = (Ok g, w')).
Proof.
  intros Halc Ha. apply alcanzable_inv in Halc as [Hf _]. split.
  - intros d m c w. rewrite agregar_gasto_eq. eexists _, _. split; [reflexivity|].
    match goal with |- GestorGastos_init _ ?w1 = (Ok ?g, _) =>
      destruct (guardar_init_fechados g usuario (tic w)) as (w' & Hg & Hi) end.
    + cbn [gastos con_gastos]. apply Forall_app. split; [done|].
      constructor; [reflexivity|constructor].
    + exact Ha.
    + rewrite guardar_datos_eq in Hg. injection Hg as <-. exact Hi.
  - intros i w [H0 Hn]. unfold eliminar_gasto.
    replace (Z.leb 0 i) with true by (symmetry; by apply Z.leb_le).
    replace (Z.ltb i (Z.of_nat (length (gastos self)))) with true
      by (symmetry; by apply Z.ltb_lt).
    cbn [andb]. unfold bind. rewrite guardar_datos_eq. eexists _, _.
    split; [reflexivity|].
    match goal with |- GestorGastos_init _ ?w1 = (Ok ?g, _) =>
      destruct (guardar_init_fechados g usuario w) as (w' & Hg & Hi) end.
    + cbn [gastos con_gastos]. by apply Forall_delete.
    + exact Ha.
    + rewrite guardar_datos_eq in Hg. injection Hg as <-. exact Hi.
Qed.

Lemma change_then_init_witness :
  exists g w',
    agregar_gasto (nuevo_gestor "ana") (VStr "cafe") (VFloat 3.5) (VStr "Comida") mundo0
      = (Ok g, w')
    /\ GestorGastos_init "ana" w' = (Ok g, w').
Proof.
  destruct (change_then_init (nuevo_gestor "ana") "ana") as [Hadd _].
  - eapply (alc_init "ana" mundo0). vm_compute. reflexivity.
  - reflexivity.
  - apply Hadd.
Defined.

(** X5. When the load of the file of a user raises (the file is not JSON,
    or an element of its sequence lacks a field), the ledger starts empty and
    the file stays as it was; the first addition then replaces the file by
    the sequence of the one new record, so what the file held is gone. *)
Theorem add_after_failed_load usuario w e w1 d m c :
  leer_datos (nuevo_gestor usuario) w = (Raise e, w1) ->
  let g := {| descripcion := d; monto := m; categoria := c; fecha := ahora w1 |} in
  exists w',
    (haz gestor <- GestorGastos_init usuario ; agregar_gasto gestor d m c) w
      = (Ok (con_gastos [g] (nuevo_gestor usuario)), w')
    /\ archivos w1 = archivos w
    /\ archivos w' !! archivo_de usuario = Some (documento_de [g]).
Proof.
  intros Hl g. unfold bind at 1. rewrite (GestorGastos_init_leer_raise _ _ _ _ Hl).
  rewrite agregar_gasto_eq. eexists. split; [reflexivity|].
  split; [by eapply leer_datos_archivos|].
  cbn [archivos con_archivos]. unfold archivo_de. by rewrite lookup_insert_eq.
Qed.

Lemma add_after_failed_load_witness :
  exists w',
    (haz gestor <- GestorGastos_init "ana" ;
     agregar_gasto gestor (VStr "pan") (VFloat 0.25) (VStr "Comida")) mundo_truncado
      = (Ok (con_gastos
               [{| descripcion := VStr "pan"; monto := VFloat 0.25;
                   categoria := VStr "Comida"; fecha := ahora mundo_truncado |}]
               (nuevo_gestor "ana")), w')
    /\ archivos mundo_truncado = archivos mundo_truncado
    /\ archivos w' !! archivo_de "ana"
         = Some (documento_de
                   [{| descripcion := VStr "pan"; monto := VFloat 0.25;
                       categoria := VStr "Comida"; fecha := ahora mundo_truncado |}]).
Proof.
  apply (add_after_failed_load "ana" mundo_truncado KeyError mundo_truncado).
  vm_compute. reflexivity.
Defined.

(** X6. Adding an expense and then removing the last index gives back the
    ledger as it was before the addition, and leaves in the file the
    sequence of that ledger. *)
Theorem agregar_then_eliminar_last self d m c w :
  exists g w1 w2,
    agregar_gasto self d m c w = (Ok g, w1)
    /\ eliminar_gasto g (Z.of_nat (length (gastos self))) w1 = (Ok self, w2)
    /\ archivos w2 !! archivo_datos self = Some (documento_de (gastos self)).
Proof.
  rewrite agregar_gasto_eq. eexists _, _, _. split; [reflexivity|].
  unfold eliminar_gasto. cbn [gastos con_gastos archivo_datos].
  rewrite length_app. cbn [length].
  replace (Z.leb 0 (Z.of_nat (length (gastos self)))) with true
    by (symmetry; apply Z.leb_le; lia).
  replace (Z.ltb (Z.of_nat (length (gastos self)))
                 (Z.of_nat (length (gastos self) + 1))) with true
    by (symmetry; apply Z.ltb_lt; lia).
  cbn [andb]. unfold bind. rewrite guardar_datos_eq.
  cbn [gastos con_gastos archivo_datos]. rewrite Nat2Z.id.
  rewrite (delete_middle (gastos self) []), app_nil_r.
  split.
  - unfold ret, con_gastos. cbn [archivo_datos]. by destruct self.
  - cbn [archivos con_archivos]. by rewrite lookup_insert_eq.
Qed.

(** ** Which files an operation touches *)

Lemma append_inj_r (a b s : string) : a +:+ s = b +:+ s -> a = b.
Proof.
  intros H. apply (f_equal String.list_ascii_of_string) in H.
  assert (forall x y, list_ascii_of_string (x +:+ y)
                      = list_ascii_of_string x ++ list_ascii_of_string y) as Happ.
  { intros x y. induction x as [|ch x IH]; [done|].
    change (String ch x +:+ y) with (String ch (x +:+ y)).
    cbn [list_ascii_of_string]. by rewrite IH. }
  rewrite !Happ in H. apply app_inv_tail in H.
  rewrite <- (string_of_list_ascii_of_string a), <- (string_of_list_ascii_of_string b).
  by rewrite H.
Qed.

Lemma archivo_de_inj u u' : archivo_de u = archivo_de u' -> u = u'.
Proof.
  unfold archivo_de, nuevo_gestor. cbn [archivo_datos]. intros H.
  cbn in H. injection H as H. apply (append_inj_r u u' ".json"). exact H.
Qed.

Lemma archivo_de_no_usuarios u : archivo_de u <> USERS_FILE.
Proof. unfold archivo_de, nuevo_gestor, USERS_FILE. cbn. discriminate. Qed.

Lemma usuarios_guardados_insert_otro path c w :
  path <> USERS_FILE ->
  usuarios_guardados (con_archivos (<[path := c]> (archivos w)) w) = usuarios_guardados w.
Proof.
  intros Hp. unfold usuarios_guardados. cbn [archivos con_archivos].
  by rewrite lookup_insert_ne.
Qed.

(** X7. The operations on the ledger of a user write the file of that user
    and no other: after an addition or a removal, every other path holds
    what it held, so the mapping of users is what it was, and so is the
    file of every other user (two user names never share a file name). *)
Theorem ledger_writes_only_its_file self usuario :
  archivo_datos self = archivo_de usuario ->
  (forall usuario', archivo_de usuario' = archivo_de usuario -> usuario' = usuario)
  /\ forall w r w',
       (exists d m c, agregar_gasto self d m c w = (r, w'))
       \/ (exists i, eliminar_gasto self i w = (r, w')) ->
       (forall path, path <> archivo_datos self -> archivos w' !! path = archivos w !! path)
       /\ usuarios_guardados w' = usuarios_guardados w
       /\ forall usuario', usuario' <> usuario ->
            archivos w' !! archivo_de usuario' = archivos w !! archivo_de usuario'.
Proof.
  intros Ha. split; [intros u'; apply archivo_de_inj|].
  intros w r w' Hop.
  assert (forall path, path <> archivo_datos self ->
            archivos w' !! path = archivos w !! path) as Hframe.
  { destruct Hop as [(d & m & c & Hop)|(i & Hop)].
    - rewrite agregar_gasto_eq in Hop. injection Hop as _ <-.
      intros path Hp. cbn [archivos con_archivos]. by rewrite lookup_insert_ne.
    - revert Hop. unfold eliminar_gasto.
      destruct (Z.leb 0 i && Z.ltb i (Z.of_nat (length (gastos self)))).
      + unfold bind. rewrite guardar_datos_eq. intros [= _ <-].
        intros path Hp. cbn [archivos con_archivos archivo_datos con_gastos].
        by rewrite lookup_insert_ne.
      + by intros [= _ <-]. }
  split; [exact Hframe|]. split.
  - unfold usuarios_guardados. rewrite Hframe; [done|].
    rewrite Ha. apply not_eq_sym, archivo_de_no_usuarios.
  - intros u' Hu'. apply Hframe. rewrite Ha. intros E. by apply archivo_de_inj in E.
Qed.

Lemma ledger_writes_only_its_file_witness :
  usuarios_guardados
    (snd (agregar_gasto (nuevo_gestor "ana") (VStr "cafe") (VFloat 3.5) (VStr "Comida")
            mundo_alice))
  = usuarios_guardados mundo_alice.
Proof.
  destruct (ledger_writes_only_its_file (nuevo_gestor "ana") "ana" eq_refl) as [_ H].
  eapply H. left. eexists _, _, _. apply surjective_pairing.
Defined.

(** ** Users: what registration writes and what it leaves *)

Lemma cargar_usuarios_archivos w r w' : cargar_usuarios w = (r, w') -> w' = w.
Proof.
  unfold cargar_usuarios, bind, os_path_exists, json_load, ret.
  destruct (bool_decide (is_Some (archivos w !! USERS_FILE))); [|by intros [= _ <-]].
  destruct (archivos w !! USERS_FILE) as [[e|v]|]; by intros [= _ <-].
Qed.

Lemma cargar_usuarios_dict w d w' :
  cargar_usuarios w = (Ok (VDict d), w') -> usuarios_guardados w = Some d.
Proof.
  unfold cargar_usuarios, bind, os_path_exists, json_load, ret, usuarios_guardados.
  destruct (archivos w !! USERS_FILE) as [[e|v]|] eqn:Hf.
  - rewrite bool_decide_eq_true_2 by eauto. rewrite Hf. by intros [=].
  - rewrite bool_decide_eq_true_2 by eauto. rewrite Hf. by intros [= -> _].
  - rewrite bool_decide_eq_false_2 by (by intros [? ?]). by intros [= <- _].
Qed.

(** X8. [registrar_usuario] writes in one case only: the users file is
    absent or holds an object, the name is not a key of it, and the answer is
    true; the file then holds the object extended with the new pair.  In every
    other case (the name exists, the file cannot be read, the document is not
    an object) nothing is written, whether the call answers false or raises;
    a stored password is never replaced.  No file of a ledger is touched. *)
Theorem registrar_usuario_writes_once usuario password w r w' :
  registrar_usuario usuario password w = (r, w') ->
  ((w' = w /\ r <> Ok true)
   \/ (r = Ok true /\ exists d,
         usuarios_guardados w = Some d /\ d !! usuario = None
         /\ w' = con_usuarios (<[usuario := VStr password]> d) w))
  /\ forall u, archivos w' !! archivo_de u = archivos w !! archivo_de u.
Proof.
  intros Hr.
  assert ((w' = w /\ r <> Ok true)
          \/ (r = Ok true /\ exists d,
                usuarios_guardados w = Some d /\ d !! usuario = None
                /\ w' = con_usuarios (<[usuario := VStr password]> d) w)) as Hcases.
  { revert Hr. unfold registrar_usuario. unfold bind at 1.
    destruct (cargar_usuarios w) as [[v|e] w0] eqn:Hc.
    2:{ apply cargar_usuarios_archivos in Hc as ->. intros [= <- <-]. by left. }
    pose proof (cargar_usuarios_archivos _ _ _ Hc) as ->.
    unfold bind, lift. destruct v as [| | | |s|l|d]; cbn [contiene].
    1-4: intros [= <- <-]; by left.
    - destruct (String.index 0 usuario s); intros [= <- <-]; by left.
    - destruct (existsb _ l); intros [= <- <-]; by left.
    - apply cargar_usuarios_dict in Hc.
      destruct (d !! usuario) as [v|] eqn:Hu.
      + rewrite bool_decide_eq_true_2 by eauto. intros [= <- <-]. by left.
      + rewrite bool_decide_eq_false_2 by (by intros [? ?]).
        cbn [setitem]. intros [= <- <-]. right. split; [done|]. by exists d. }
  split; [exact Hcases|]. intros u.
  destruct Hcases as [[-> _]|(_ & d & _ & _ & ->)]; [done|].
  unfold con_usuarios. cbn [archivos con_archivos].
  rewrite lookup_insert_ne; [done|]. apply not_eq_sym, archivo_de_no_usuarios.
Qed.

Lemma registrar_usuario_writes_once_witness :
  (mundo_alice = mundo_alice /\ Ok false <> Ok true)
  \/ (@Ok bool false = Ok true /\ exists d,
        usuarios_guardados mundo_alice = Some d /\ d !! "alice" = None
        /\ mundo_alice = con_usuarios (<["alice" := VStr "otra"]> d) mundo_alice).
Proof.
  apply (registrar_usuario_writes_once "alice" "otra" mundo_alice (Ok false) mundo_alice).
  vm_compute. reflexivity.
Defined.

(** X9. A registration changes no answer of [validar_usuario] but those for
    the name that it added: with a mapping of users in the store, whatever
    the registration answered, a name other than the registered one, or the
    registered one when it was already a key, validates with the same
    passwords after as before. *)
Theorem registrar_usuario_keeps_logins w d usuario password r w' :
  usuarios_guardados w = Some d ->
  registrar_usuario usuario password w = (r, w') ->
  forall usuario' password',
    usuario' <> usuario \/ is_Some (d !! usuario) ->
    exists b, validar_usuario usuario' password' w = (Ok b, w)
              /\ validar_usuario usuario' password' w' = (Ok b, w').
Proof.
  intros Hd Hr u' p' Hu'. rewrite (validar_usuario_guardados w d) by done.
  eexists. split; [reflexivity|].
  destruct (d !! usuario) as [v|] eqn:Hu.
  - rewrite (registrar_usuario_existente w d) in Hr by (rewrite ?Hu; eauto).
    injection Hr as _ <-. by apply validar_usuario_guardados.
  - rewrite (registrar_usuario_nuevo w d) in Hr by done. injection Hr as _ <-.
    rewrite (validar_usuario_guardados _ _ _ _ (usuarios_guardados_con_usuarios _ w)).
    destruct Hu' as [Hne|[? ?]]; [|done]. by rewrite lookup_insert_ne.
Qed.

Lemma registrar_usuario_keeps_logins_witness :
  exists b,
    validar_usuario "alice" "pw1" mundo_alice = (Ok b, mundo_alice)
    /\ validar_usuario "alice" "pw1"
         (con_usuarios (<["bob" := VStr "pw2"]> {[ "alice" := VStr "pw1" ]}) mundo_alice)
       = (Ok b, con_usuarios (<["bob" := VStr "pw2"]> {[ "alice" := VStr "pw1" ]})
                  mundo_alice).
Proof.
  apply (registrar_usuario_keeps_logins mundo_alice {[ "alice" := VStr "pw1" ]}
           "bob" "pw2" (Ok true)).
  - apply usuarios_guardados_con_usuarios.
  - apply registrar_usuario_nuevo; [apply usuarios_guardados_con_usuarios|].
    vm_compute. reflexivity.
  - left. discriminate.
Defined.

(** X10. The users file has no [try] around its load: when it exists and
    cannot be read, [registrar_usuario] and [validar_usuario] both raise the
    exception of the load; when it holds a document that is not an object,
    [validar_usuario] raises [AttributeError].  Nothing is written. *)
Theorem usuarios_load_errors_propagate usuario password w :
  (forall e, archivos w !! USERS_FILE = Some (Ilegible e) ->
     registrar_usuario usuario password w = (Raise e, w)
     /\ validar_usuario usuario password w = (Raise e, w))
  /\ (forall v, archivos w !! USERS_FILE = Some (Documento v) ->
        (forall d, v <> VDict d) ->
        validar_usuario usuario password w = (Raise AttributeError, w)
        /\ exists r, registrar_usuario usuario password w = (r, w) /\ r <> Ok true).
Proof.
  split.
  - intros e Hf.
    assert (cargar_usuarios w = (Raise e, w)) as Hc.
    { unfold cargar_usuarios, bind, os_path_exists, json_load.
      rewrite bool_decide_eq_true_2 by (rewrite Hf; eauto). by rewrite Hf. }
    unfold registrar_usuario, validar_usuario, bind. by rewrite Hc.
  - intros v Hf Hv.
    assert (cargar_usuarios w = (Ok v, w)) as Hc.
    { unfold cargar_usuarios, bind, os_path_exists, json_load.
      rewrite bool_decide_eq_true_2 by (rewrite Hf; eauto). by rewrite Hf. }
    unfold registrar_usuario, validar_usuario, bind. rewrite Hc. unfold lift.
    destruct v as [| | | |s|l|d]; cbn [dict_get contiene].
    1-4: (split; [done|]; by eexists).
    + split; [done|]. destruct (String.index 0 usuario s); by eexists.
    + split; [done|]. destruct (existsb _ l); by eexists.
    + by destruct (Hv d).
Qed.

Lemma usuarios_load_errors_propagate_witness :
  registrar_usuario "alice" "pw1"
    (con_archivos {[ USERS_FILE := Ilegible JSONDecodeError ]} mundo0)
  = (Raise JSONDecodeError, con_archivos {[ USERS_FILE := Ilegible JSONDecodeError ]} mundo0)
  /\ validar_usuario "alice" "pw1"
       (con_archivos {[ USERS_FILE := Documento (VList [VStr "alice"]) ]} mundo0)
     = (Raise AttributeError,
        con_archivos {[ USERS_FILE := Documento (VList [VStr "alice"]) ]} mundo0).
Proof.
  split.
  - destruct (usuarios_load_errors_propagate "alice" "pw1"
                (con_archivos {[ USERS_FILE := Ilegible JSONDecodeError ]} mundo0))
      as [H _].
    apply (H JSONDecodeError). vm_compute. reflexivity.
  - destruct (usuarios_load_errors_propagate "alice" "pw1"
                (con_archivos {[ USERS_FILE := Documento (VList [VStr "alice"]) ]} mundo0))
      as [_ H].
    apply (H (VList [VStr "alice"])); [vm_compute; reflexivity|discriminate].
Defined.

(** ** The session *)

(** X11. The session changes in one way only.  A pressed login whose name
    and password [validar_usuario] accepts sets the session to the name typed
    and greets the user; a pressed login that it refuses answers "Usuario o
    contraseña incorrectos" and leaves the session as it was, so it does not
    close an open session; a pressed registration answers by what
    [registrar_usuario] returned and leaves the session as it was, so it does
    not log in; a run in which the button is not pressed does nothing.  And
    whenever the bar returns with a session other than the one it had, a
    login was accepted. *)
Theorem session_changes_only_by_login op usuario password pulsado sesion w :
  (barra_usuario op usuario password false sesion w = (Ok (None, sesion), w))
  /\ (forall w', validar_usuario usuario password w = (Ok true, w') ->
       barra_usuario Iniciar_sesion usuario password true sesion w
         = (Ok (Some (Bienvenido usuario), Some usuario), w'))
  /\ (forall w', validar_usuario usuario password w = (Ok false, w') ->
       barra_usuario Iniciar_sesion usuario password true sesion w
         = (Ok (Some Usuario_o_contrasena_incorrectos, sesion), w'))
  /\ (forall b w', registrar_usuario usuario password w = (Ok b, w') ->
       barra_usuario Registrarse usuario password true sesion w
         = (Ok (Some (if b then Usuario_registrado else El_usuario_ya_existe), sesion), w'))
  /\ (forall aviso sesion' w',
       barra_usuario op usuario password pulsado sesion w = (Ok (aviso, sesion'), w') ->
       (sesion' = sesion /\ aviso <> Some (Bienvenido usuario))
       \/ (op = Iniciar_sesion /\ pulsado = true
           /\ validar_usuario usuario password w = (Ok true, w')
           /\ sesion' = Some usuario /\ aviso = Some (Bienvenido usuario))).
Proof.
  split; [by destruct op|]. split; [|split; [|split]].
  - intros w' Hv. unfold barra_usuario, bind. by rewrite Hv.
  - intros w' Hv. unfold barra_usuario, bind. by rewrite Hv.
  - intros b w' Hr. unfold barra_usuario, bind. by rewrite Hr.
  - intros aviso sesion' w'.
    unfold barra_usuario. destruct op, pulsado; unfold bind, ret.
    + destruct (validar_usuario usuario password w) as [[[|]|e] w0]; [| |done].
      * intros [= <- <- <-]. right. by repeat split.
      * intros [= <- <- <-]. by left.
    + intros [= <- <- <-]. by left.
    + destruct (registrar_usuario usuario password w) as [[[|]|e] w0]; [| |done].
      * intros [= <- <- <-]. by left.
      * intros [= <- <- <-]. by left.
    + intros [= <- <- <-]. by left.
Qed.

Lemma session_changes_only_by_login_witness :
  barra_usuario Iniciar_sesion "alice" "pw1" true None mundo_alice
    = (Ok (Some (Bienvenido "alice"), Some "alice"), mundo_alice)
  /\ barra_usuario Iniciar_sesion "bob" "pw1" true (Some "alice") mundo_alice
       = (Ok (Some Usuario_o_contrasena_incorrectos, Some "alice"), mundo_alice)
  /\ barra_usuario Registrarse "alice" "otra" true None mundo_alice
       = (Ok (Some El_usuario_ya_existe, None), mundo_alice).
Proof.
  split; [|split].
  - destruct (session_changes_only_by_login Iniciar_sesion "alice" "pw1" true None
                mundo_alice) as (_ & H & _).
    apply H. vm_compute. reflexivity.
  - destruct (session_changes_only_by_login Iniciar_sesion "bob" "pw1" true (Some "alice")
                mundo_alice) as (_ & _ & H & _).
    apply H. vm_compute. reflexivity.
  - destruct (session_changes_only_by_login Registrarse "alice" "otra" true None
                mundo_alice) as (_ & _ & _ & H & _).
    apply (H false). vm_compute. reflexivity.
Defined.

(** X12. With a mapping of users in the store that holds the name with the
    password, the login is accepted and the session holds the name; the
    application is then shown, and the ledger of the user constructed, unless
    the name is the empty string: the empty name can be registered and logs
    in, but Python takes the session as false and nothing is shown. *)
Theorem login_then_open w d usuario password sesion :
  usuarios_guardados w = Some d ->
  d !! usuario = Some (VStr password) ->
  barra_usuario Iniciar_sesion usuario password true sesion w
    = (Ok (Some (Bienvenido usuario), Some usuario), w)
  /\ (usuario = "" -> abrir_gestor (Some usuario) w = (Ok None, w))
  /\ (usuario <> "" -> exists g w',
        abrir_gestor (Some usuario) w = (Ok (Some g), w')
        /\ GestorGastos_init usuario w = (Ok g, w')
        /\ archivo_datos g = archivo_de usuario).
Proof.
  intros Hd Hu. split; [|split].
  - unfold barra_usuario, bind. rewrite (validar_usuario_guardados w d) by done.
    rewrite Hu. cbn. by rewrite String.eqb_refl.
  - by intros ->.
  - intros Hne. unfold abrir_gestor. cbn [truthy].
    replace (String.eqb usuario "") with false by (symmetry; by apply String.eqb_neq).
    cbn [negb]. unfold bind, GestorGastos_init.
    destruct (cargar_datos_total (nuevo_gestor usuario) w) as (g & w' & Hg & _ & Ha & _).
    rewrite Hg. by exists g, w'.
Qed.

Lemma login_then_open_witness :
  barra_usuario Iniciar_sesion "" "" true None mundo_sin_nombre
    = (Ok (Some (Bienvenido ""), Some ""), mundo_sin_nombre)
  /\ abrir_gestor (Some "") mundo_sin_nombre = (Ok None, mundo_sin_nombre)
  /\ exists g w', abrir_gestor (Some "alice") mundo_alice = (Ok (Some g), w')
                  /\ GestorGastos_init "alice" mundo_alice = (Ok g, w')
                  /\ archivo_datos g = archivo_de "alice".
Proof.
  destruct (login_then_open mundo_sin_nombre {[ "" := VStr "" ]} "" "" None)
    as (H1 & H2 & _).
  { apply usuarios_guardados_con_usuarios. }
  { vm_compute. reflexivity. }
  destruct (login_then_open mundo_alice {[ "alice" := VStr "pw1" ]} "alice" "pw1" None)
    as (_ & _ & H3).
  { apply usuarios_guardados_con_usuarios. }
  { vm_compute. reflexivity. }
  split; [exact H1|]. split; [by apply H2|]. apply H3. discriminate.
Defined.

(** ** The filtered list and its delete buttons *)

Lemma objetos_desde_lookup k gs i o :
  objetos_desde k gs !! i = Some o -> fst o = (k + i)%nat /\ gs !! i = Some (snd o).
Proof.
  revert k i. induction gs as [|g gs IH]; intros k [|i]; cbn; try done.
  - intros [= <-]. cbn. split; [lia|done].
  - intros H. apply IH in H as [-> ?]. split; [lia|done].
Qed.

Lemma index_objetos_desde k gs j g :
  gs !! j = Some g -> index (k + j) (objetos_desde k gs) = Some j.
Proof.
  revert k j. induction gs as [|x gs IH]; intros k [|j]; cbn; try done.
  - intros _. replace (k + 0)%nat with k by lia. by rewrite Nat.eqb_refl.
  - intros Hj. replace (Nat.eqb k (k + S j)) with false
      by (symmetry; apply Nat.eqb_neq; lia).
    replace (k + S j)%nat with (S k + j)%nat by lia. by rewrite (IH (S k) j Hj).
Qed.

Lemma registros_objetos_desde k gs : registros (objetos_desde k gs) = gs.
Proof.
  revert k. induction gs as [|g gs IH]; intros k; [done|].
  unfold registros in *. cbn. by rewrite IH.
Qed.

Lemma registros_filter_objetos (P : Gasto -> bool) k gs :
  registros (List.filter (fun o => P (snd o)) (objetos_desde k gs)) = List.filter P gs.
Proof.
  revert k. induction gs as [|g gs IH]; intros k; [done|].
  unfold registros in *. cbn. destruct (P g); cbn; by rewrite IH.
Qed.

Lemma filter_objetos_lookup (P : Gasto -> bool) k gs i o :
  List.filter (fun o => P (snd o)) (objetos_desde k gs) !! i = Some o ->
  exists j, fst o = (k + j)%nat /\ gs !! j = Some (snd o)
            /\ List.filter P (delete j gs) = delete i (List.filter P gs).
Proof.
  revert k i. induction gs as [|g gs IH]; intros k i; [done|].
  cbn [objetos_desde List.filter snd]. destruct (P g) eqn:Hg.
  - destruct i as [|i]; cbn [lookup list_lookup].
    + intros [= <-]. exists 0%nat. cbn. split; [lia|]. done.
    + intros H. apply IH in H as (j & -> & Hj & Hf). exists (S j).
      split; [lia|]. split; [done|].
      change (delete (S j) (g :: gs)) with (g :: delete j gs).
      cbn [List.filter]. by rewrite Hg, Hf.
  - intros H. apply IH in H as (j & -> & Hj & Hf). exists (S j).
    split; [lia|]. split; [done|].
    change (delete (S j) (g :: gs)) with (g :: delete j gs).
    cbn [List.filter]. by rewrite Hg, Hf.
Qed.

(** X13. The button "Eliminar" of a row removes the record that the row
    shows, whatever the filter: when row [i] of the list filtered by
    [filtro_cat] shows the object [o], [index] finds it (no [ValueError]), at
    the position [j] where the ledger holds that record; the removal returns
    the ledger without position [j] and writes it to the file; and the list
    filtered in the same way is then the one shown before without row [i]. *)
Theorem pulsar_eliminar_removes_shown_row self filtro_cat i o :
  mostrar self filtro_cat !! i = Some o ->
  exists j c,
    pulsar_eliminar self o = Some c
    /\ gastos self !! j = Some (snd o)
    /\ (forall w, exists w',
          c w = (Ok (con_gastos (delete j (gastos self)) self), w')
          /\ archivos w' !! archivo_datos self
               = Some (documento_de (delete j (gastos self))))
    /\ registros (mostrar (con_gastos (delete j (gastos self)) self) filtro_cat)
         = delete i (registros (mostrar self filtro_cat)).
Proof.
  intros Hrow.
  assert (exists j, fst o = j /\ gastos self !! j = Some (snd o)
            /\ registros (mostrar (con_gastos (delete j (gastos self)) self) filtro_cat)
                 = delete i (registros (mostrar self filtro_cat))) as (j & Ho & Hj & Hv).
  { revert Hrow. unfold mostrar, objetos. cbn [gastos con_gastos].
    destruct (String.eqb filtro_cat "Todas").
    - intros H. apply objetos_desde_lookup in H as [Ho Hj]. exists i.
      split; [done|]. split; [done|]. by rewrite !registros_objetos_desde.
    - intros H.
      apply (filter_objetos_lookup (fun g => valor_eq_str (categoria g) filtro_cat))
        in H as (j & Ho & Hj & Hf).
      exists j.
      split; [done|]. split; [done|].
      by rewrite !(registros_filter_objetos
                    (fun g => valor_eq_str (categoria g) filtro_cat)). }
  exists j, (eliminar_gasto self (Z.of_nat j)).
  split; [|split; [exact Hj|split; [|exact Hv]]].
  - unfold pulsar_eliminar, objetos. rewrite Ho.
    pose proof (index_objetos_desde 0 (gastos self) j (snd o) Hj) as Hi.
    cbn [Nat.add] in Hi. by rewrite Hi.
  - intros w. apply lookup_lt_Some in Hj. unfold eliminar_gasto.
    replace (Z.leb 0 (Z.of_nat j)) with true by (symmetry; apply Z.leb_le; lia).
    replace (Z.ltb (Z.of_nat j) (Z.of_nat (length (gastos self)))) with true
      by (symmetry; apply Z.ltb_lt; lia).
    cbn [andb]. unfold bind. rewrite guardar_datos_eq, Nat2Z.id. eexists.
    split; [reflexivity|]. cbn [archivos con_archivos archivo_datos con_gastos gastos].
    by rewrite lookup_insert_eq.
Qed.

Lemma pulsar_eliminar_removes_shown_row_witness :
  exists j c,
    pulsar_eliminar tres_categorias
      (2%nat, {| descripcion := VStr "pan"; monto := VFloat 0.25;
                 categoria := VStr "Comida"; fecha := VStr "2024-05-17 09:30:02" |})
      = Some c
    /\ gastos tres_categorias !! j
         = Some {| descripcion := VStr "pan"; monto := VFloat 0.25;
                   categoria := VStr "Comida"; fecha := VStr "2024-05-17 09:30:02" |}
    /\ (forall w, exists w',
          c w = (Ok (con_gastos (delete j (gastos tres_categorias)) tres_categorias), w')
          /\ archivos w' !! archivo_datos tres_categorias
               = Some (documento_de (delete j (gastos tres_categorias))))
    /\ registros (mostrar (con_gastos (delete j (gastos tres_categorias)) tres_categorias)
                    "Comida")
         = delete 1%nat (registros (mostrar tres_categorias "Comida")).
Proof.
  apply (pulsar_eliminar_removes_shown_row tres_categorias "Comida" 1%nat
           (2%nat, {| descripcion := VStr "pan"; monto := VFloat 0.25;
                      categoria := VStr "Comida"; fecha := VStr "2024-05-17 09:30:02" |})).
  vm_compute. reflexivity.
Defined.

(** ** Amounts that are not numbers *)

Lemma fold_sum_paso_raise vs e : fold_left sum_paso vs (Raise e) = Raise e.
Proof. induction vs as [|v vs IH]; [done|]. exact IH. Qed.

Lemma fold_sum_paso_no_numero vs acc :
  (exists v, v ∈ vs /\ numero_de v = None) ->
  exists e, fold_left sum_paso vs acc = Raise e.
Proof.
  intros (v & Hin & Hv). revert acc.
  induction vs as [|x vs IH]; intros acc; [by apply elem_of_nil in Hin|].
  cbn [fold_left]. apply elem_of_cons in Hin as [<-|Hin].
  - destruct acc as [a|e]; cbn [sum_paso]; [rewrite Hv|];
      rewrite fold_sum_paso_raise; eauto.
  - by apply IH.
Qed.

Lemma Gasto_from_dict_monto d w g w' :
  Gasto_from_dict d w = (Ok g, w') -> getitem d "monto" = Ok (monto g).
Proof.
  unfold Gasto_from_dict, bind, lift.
  destruct (getitem d "descripcion") as [v1|]; [|done].
  destruct (getitem d "monto") as [v2|]; [|done].
  destruct (getitem d "categoria") as [v3|]; [|done].
  destruct (getitem d "fecha") as [v4|]; [|done].
  destruct (Gasto_init_fechado v1 v2 v3 v4 w) as (g0 & w0 & -> & _ & _ & <- & _).
  by intros [= <- _].
Qed.

Lemma mapM_from_dict_montos l w gs w' :
  mapM Gasto_from_dict l w = (Ok gs, w') ->
  Forall2 (fun d g => getitem d "monto" = Ok (monto g)) l gs.
Proof.
  revert w gs w'. induction l as [|d l IH]; intros w gs w'; cbn [mapM].
  - intros [= <- _]. constructor.
  - unfold bind at 1. destruct (Gasto_from_dict d w) as [[g|e] w1] eqn:Hd; [|done].
    unfold bind at 1. destruct (mapM Gasto_from_dict l w1) as [[gs1|e] w2] eqn:Hl; [|done].
    intros [= <- _]. constructor; [by eapply Gasto_from_dict_monto|by eapply IH].
Qed.

Lemma fold_sum_paso_3_12_raise LONG_MAX vs e :
  fold_left (sum_paso_3_12 LONG_MAX) vs (Raise e) = Raise e.
Proof. induction vs as [|v vs IH]; [done|]. exact IH. Qed.

Lemma fold_sum_paso_3_12_no_numero LONG_MAX vs st :
  (exists v, v ∈ vs /\ numero_de v = None) ->
  exists e, fold_left (sum_paso_3_12 LONG_MAX) vs st = Raise e.
Proof.
  intros (v & Hin & Hv). revert st.
  induction vs as [|x vs IH]; intros st; [by apply elem_of_nil in Hin|].
  cbn [fold_left]. apply elem_of_cons in Hin as [<-|Hin]; [|by apply IH].
  assert (exists e, sum_paso_3_12 LONG_MAX st v = Raise e) as [e ->].
  { destruct st as [[i|f c|r]|e]; destruct v; try done; cbn; eauto. }
  rewrite fold_sum_paso_3_12_raise. eauto.
Qed.

Lemma sum_no_numero py vs :
  (exists v, v ∈ vs /\ numero_de v = None) -> exists e, sum py vs = Raise e.
Proof.
  intros Hv. destruct py as [|LONG_MAX]; cbn [sum].
  - unfold sum_hasta_3_11.
    destruct (fold_sum_paso_no_numero vs (Ok (NInt 0)) Hv) as [e ->]. eauto.
  - unfold sum_desde_3_12.
    destruct (fold_sum_paso_3_12_no_numero LONG_MAX vs (Ok (Bucle_long 0)) Hv) as [e ->].
    eauto.
Qed.

(** X14. The load checks no type: a stored sequence whose elements all have
    the four fields loads whole, one record per element, also when the
    amount of one of them is not a number (a string, [null], a list, an
    object); [total] of the ledger so loaded then raises. *)
Theorem load_then_total_raises py usuario w l :
  archivos w !! archivo_de usuario = Some (Documento (VList l)) ->
  forallb tiene_los_campos l = true ->
  (exists d m, d ∈ l /\ getitem d "monto" = Ok m /\ numero_de m = None) ->
  exists g w', GestorGastos_init usuario w = (Ok g, w')
               /\ length (gastos g) = length l
               /\ exists e, total py g = Raise e.
Proof.
  intros Hf Hl (d & m & Hin & Hm & Hno).
  destruct (cargar_datos_bien_formado usuario w l Hf Hl) as (g & w' & Hg & Hlen).
  exists g, w'. split; [done|]. split; [done|].
  assert (Forall2 (fun d g => getitem d "monto" = Ok (monto g)) l (gastos g)) as H2.
  { revert Hg. unfold GestorGastos_init.
    rewrite cargar_datos_con_archivo by (unfold archivo_de in Hf; rewrite Hf; eauto).
    unfold leer_datos, bind, json_load, lift. unfold archivo_de in Hf. rewrite Hf.
    cbn [iterar].
    destruct (mapM Gasto_from_dict l w) as [[gs|e] w1] eqn:Hmap.
    - intros [= <- _]. by eapply mapM_from_dict_montos.
    - intros [= <- _]. cbn in Hlen. destruct l; [by apply elem_of_nil in Hin|done]. }
  apply list_elem_of_lookup in Hin as [i Hi].
  destruct (Forall2_lookup_l _ _ _ _ _ H2 Hi) as (g0 & Hg0 & Hmg).
  unfold total. apply sum_no_numero.
  exists (monto g0). split.
  - apply list_elem_of_fmap. exists g0. split; [done|]. by eapply list_elem_of_lookup_2.
  - rewrite Hm in Hmg. by injection Hmg as <-.
Qed.

Lemma load_then_total_raises_witness :
  exists g w', GestorGastos_init "ana" mundo_monto_texto = (Ok g, w')
               /\ length (gastos g) = 1%nat
               /\ exists e, total cpython_3_12 g = Raise e.
Proof.
  apply (load_then_total_raises cpython_3_12 "ana" mundo_monto_texto _ eq_refl).
  - vm_compute. reflexivity.
  - eexists _, (VStr "mucho"). split; [apply list_elem_of_here|].
    split; [vm_compute; reflexivity|reflexivity].
Defined.

(** ** The categories depend on the set only *)

Lemma StronglySorted_str_lt_unique l1 l2 :
  StronglySorted str_lt l1 -> StronglySorted str_lt l2 ->
  (forall c, c ∈ l1 <-> c ∈ l2) -> l1 = l2.
Proof.
  intros H1. revert l2. induction H1 as [|x l1 Hs1 IH Hx]; intros l2 H2 Hmem.
  - destruct l2 as [|y l2]; [done|].
    pose proof (proj2 (Hmem y) (list_elem_of_here _ _)) as H.
    by apply elem_of_nil in H.
  - destruct H2 as [|y l2 Hs2 Hy].
    { pose proof (proj1 (Hmem x) (list_elem_of_here _ _)) as H.
      by apply elem_of_nil in H. }
    assert (x = y) as <-.
    { pose proof (proj1 (Hmem x) (list_elem_of_here _ _)) as Hxin.
      pose proof (proj2 (Hmem y) (list_elem_of_here _ _)) as Hyin.
      apply elem_of_cons in Hxin as [?|Hxin]; [done|].
      apply elem_of_cons in Hyin as [?|Hyin]; [done|].
      eapply Forall_forall in Hx; [|exact Hyin].
      eapply Forall_forall in Hy; [|exact Hxin].
      destruct (str_lt_irrefl x). by eapply str_lt_trans. }
    f_equal. apply IH; [done|]. intros c. split; intros Hc.
    + pose proof (proj1 (Hmem c) (list_elem_of_further _ _ _ Hc)) as Hc'.
      apply elem_of_cons in Hc' as [->|?]; [|done].
      eapply Forall_forall in Hx; [|exact Hc]. by apply str_lt_irrefl in Hx.
    + pose proof (proj2 (Hmem c) (list_elem_of_further _ _ _ Hc)) as Hc'.
      apply elem_of_cons in Hc' as [->|?]; [|done].
      eapply Forall_forall in Hy; [|exact Hc]. by apply str_lt_irrefl in Hy.
Qed.

Lemma obtener_categorias_strs self cs :
  categoria <$> gastos self = VStr <$> cs ->
  obtener_categorias self = Ok (VStr <$> str_sorted (fold_left str_set_add cs [])).
Proof.
  intros Hc. unfold obtener_categorias. by rewrite Hc, set_de_strs, sorted_strs.
Qed.

(** X15. The list of categories depends only on which categories occur:
    two ledgers whose categories are strings, and in which the same strings
    occur, have the same list, whatever the order and the number of their
    records. *)
Theorem obtener_categorias_same_set self1 self2 cs1 cs2 :
  categoria <$> gastos self1 = VStr <$> cs1 ->
  categoria <$> gastos self2 = VStr <$> cs2 ->
  (forall c, c ∈ cs1 <-> c ∈ cs2) ->
  obtener_categorias self1 = obtener_categorias self2.
Proof.
  intros H1 H2 Hmem.
  rewrite (obtener_categorias_strs self1 cs1 H1), (obtener_categorias_strs self2 cs2 H2).
  destruct (fold_str_set_add cs1 [] (NoDup_nil_2)) as [Hnd1 Hm1].
  destruct (fold_str_set_add cs2 [] (NoDup_nil_2)) as [Hnd2 Hm2].
  do 2 f_equal. apply StronglySorted_str_lt_unique.
  - by apply str_sorted_sorted.
  - by apply str_sorted_sorted.
  - intros c. rewrite !elem_of_str_sorted, Hm1, Hm2, !elem_of_nil, Hmem. tauto.
Qed.

Lemma obtener_categorias_same_set_witness :
  obtener_categorias tres_categorias
  = obtener_categorias
      (con_gastos (reverse (gastos tres_categorias) ++ gastos tres_categorias)
                  tres_categorias).
Proof.
  apply (obtener_categorias_same_set _ _
           ["Comida"; "Otros"; "Comida"]
           ["Comida"; "Otros"; "Comida"; "Comida"; "Otros"; "Comida"]).
  - reflexivity.
  - reflexivity.
  - intros c. rewrite !elem_of_cons, !elem_of_nil. tauto.
Defined.

(** ** What a load keeps of a well-formed file *)

Lemma Gasto_from_dict_leido d w g w' :
  Gasto_from_dict d w = (Ok g, w') ->
  leido_de (ahora w) d g
  /\ reloj w' = reloj w
  /\ lecturas w' = (lecturas w + if sin_fecha d then 1 else 0)%nat.
Proof.
  unfold Gasto_from_dict, bind, lift, leido_de, sin_fecha.
  destruct (getitem d "descripcion") as [v1|]; [|done].
  destruct (getitem d "monto") as [v2|]; [|done].
  destruct (getitem d "categoria") as [v3|]; [|done].
  destruct (getitem d "fecha") as [v4|]; [|done].
  destruct (truthy v4) eqn:Hf.
  - rewrite Gasto_init_con_fecha by done. intros [= <- <-]. cbn.
    split; [|split; [done|lia]].
    split; [done|]. split; [done|]. split; [done|]. exists v4. by rewrite Hf.
  - rewrite Gasto_init_sin_fecha by done. intros [= <- <-]. cbn.
    split; [|split; [done|lia]].
    split; [done|]. split; [done|]. split; [done|]. exists v4. by rewrite Hf.
Qed.

Lemma mapM_from_dict_leido l w gs w' :
  mapM Gasto_from_dict l w = (Ok gs, w') ->
  forall i d, l !! i = Some d ->
    exists g, gs !! i = Some g /\ leido_de (fecha_de_carga w l i) d g.
Proof.
  revert w gs w'. induction l as [|x l IH]; intros w gs w'; cbn [mapM]; [done|].
  unfold bind at 1. destruct (Gasto_from_dict x w) as [[g|e] w1] eqn:Hx; [|done].
  unfold bind at 1. destruct (mapM Gasto_from_dict l w1) as [[gs1|e] w2] eqn:Hl; [|done].
  intros [= <- _] i d Hi.
  apply Gasto_from_dict_leido in Hx as (Hg & Hr & Hn).
  destruct i as [|i]; cbn in Hi.
  - injection Hi as <-. exists g. split; [done|].
    unfold fecha_de_carga. cbn [take List.filter length].
    rewrite Nat.add_0_r. exact Hg.
  - destruct (IH _ _ _ Hl i d Hi) as (g' & Hg' & Hleido). exists g'.
    split; [done|].
    replace (fecha_de_carga w (x :: l) (S i)) with (fecha_de_carga w1 l i); [done|].
    unfold fecha_de_carga. rewrite Hr, Hn. do 3 f_equal.
    cbn [take List.filter]. destruct (sin_fecha x); cbn [length]; lia.
Qed.

(** X16. A stored sequence whose elements all have the four fields loads
    whole and in order: the ledger has one record per element, at the same
    position, with the element's description, amount and category as they
    are stored (other keys of the element are ignored), and with the
    element's date when Python takes it as true; a date that Python takes as
    false is replaced by the time read from the clock during the load, one
    reading for each such element, in order.  The files are left as they
    were. *)
Theorem load_keeps_order_and_fields usuario w l :
  archivos w !! archivo_de usuario = Some (Documento (VList l)) ->
  forallb tiene_los_campos l = true ->
  exists g w', GestorGastos_init usuario w = (Ok g, w')
               /\ length (gastos g) = length l
               /\ (forall i d, l !! i = Some d ->
                     exists r, gastos g !! i = Some r
                               /\ leido_de (fecha_de_carga w l i) d r)
               /\ archivos w' = archivos w.
Proof.
  intros Hf Hl.
  destruct (cargar_datos_bien_formado usuario w l Hf Hl) as (g & w' & Hg & Hlen).
  exists g, w'. split; [done|]. split; [done|]. revert Hg. unfold GestorGastos_init.
  rewrite cargar_datos_con_archivo by (unfold archivo_de in Hf; rewrite Hf; eauto).
  unfold leer_datos, bind, json_load, lift. unfold archivo_de in Hf. rewrite Hf.
  cbn [iterar].
  destruct (mapM Gasto_from_dict l w) as [[gs|e] w1] eqn:Hmap.
  - intros [= <- <-]. split; [by eapply mapM_from_dict_leido|].
    by eapply mapM_from_dict_archivos.
  - intros [= <- <-]. cbn in Hlen. destruct l as [|d l]; [|done].
    cbn in Hmap. done.
Qed.

Lemma load_keeps_order_and_fields_witness :
  exists g w',
    GestorGastos_init "ana"
      (con_archivos {[ "gastos_ana.json" := documento_de [gasto_sin_fecha; gasto_cafe] ]}
                    mundo0) = (Ok g, w')
    /\ length (gastos g) = 2%nat
    /\ gastos g = [con_fecha (VStr "2024-05-17 09:30:00") gasto_sin_fecha; gasto_cafe]
    /\ archivos w'
       = archivos (con_archivos
                     {[ "gastos_ana.json" := documento_de [gasto_sin_fecha; gasto_cafe] ]}
                     mundo0).
Proof.
  destruct (load_keeps_order_and_fields "ana"
              (con_archivos
                 {[ "gastos_ana.json" := documento_de [gasto_sin_fecha; gasto_cafe] ]}
                 mundo0)
              (Gasto_to_dict <$> [gasto_sin_fecha; gasto_cafe]))
    as (g & w' & Hg & Hlen & _ & Ha).
  - vm_compute. reflexivity.
  - vm_compute. reflexivity.
  - exists g, w'. split; [exact Hg|]. split; [exact Hlen|]. split; [|exact Ha].
    revert Hg. vm_compute. by intros [= <- _].
Defined.
